(** * The MCP gateway CLI: protocol client, dispatcher and agent loop

    A shallow embedding of [cli/src/client.ts], [cli/src/runtime/mcp.ts],
    [cli/src/commands/executor.ts], [cli/src/agent/tools.ts] and
    [cli/src/agent/agentRunner.ts], and the properties the specification
    states about them.

    Conventions.
    - A JavaScript string is a [string]: a sequence of code units, of which
      the model covers those below 256.
    - A value obtained from [JSON.parse] is a [Json]; a number is the rational
      it denotes.
    - An [async] function is a computation in the monad [M]: it reads and
      updates a state and either returns a value or throws an [Exn].  A state
      change made before a [throw] stays, as a mutation does in JavaScript.
    - The network, the language-model provider and the platform's JSON
      functions are not code of the repository: the network and the provider
      are oracles consulted in order, the JSON functions are variables of the
      section. *)

From Stdlib Require Import String Ascii List ZArith Bool Lia QArith_base DecimalString.
Import ListNotations.
Open Scope string_scope.
Open Scope Z_scope.

(** ** JavaScript strings *)

Module Js.

Definition LF : ascii := "010"%char.
Definition CR : ascii := "013"%char.
Definition DQ : ascii := "034"%char.

(** [true] when the string is not empty: the truth value of a string. *)
Definition nonempty (s : string) : bool :=
  match s with EmptyString => false | String _ _ => true end.

(** [s.startsWith(p)] *)
Definition startsWith (p s : string) : bool := String.prefix p s.

(** [s.includes(sub)] *)
Fixpoint includes (sub s : string) : bool :=
  String.prefix sub s ||
  match s with
  | EmptyString => false
  | String _ rest => includes sub rest
  end.

(** [s.slice(n)] for [n] within or past the end of [s]. *)
Fixpoint slice (n : nat) (s : string) : string :=
  match n, s with
  | O, _ => s
  | S _, EmptyString => EmptyString
  | S n', String _ rest => slice n' rest
  end.

(** White space and line terminators among the code units below 256. *)
Definition is_space (c : ascii) : bool :=
  let n := nat_of_ascii c in
  (Nat.leb 9 n && Nat.leb n 13) || Nat.eqb n 32 || Nat.eqb n 160.

Fixpoint trimStart (s : string) : string :=
  match s with
  | EmptyString => EmptyString
  | String c rest => if is_space c then trimStart rest else s
  end.

Fixpoint trimEnd (s : string) : string :=
  match s with
  | EmptyString => EmptyString
  | String c rest =>
      match trimEnd rest with
      | EmptyString => if is_space c then EmptyString else String c EmptyString
      | t => String c t
      end
  end.

(** [s.trim()] *)
Definition trim (s : string) : string := trimEnd (trimStart s).

(** [l.join(sep)] *)
Fixpoint join (sep : string) (l : list string) : string :=
  match l with
  | [] => EmptyString
  | [x] => x
  | x :: rest => x ++ sep ++ join sep rest
  end.

(** [s.split(/\r?\n/)]: a line ends at a line feed, which takes a carriage
    return just before it along; a carriage return elsewhere stays in its
    line. *)
Fixpoint split_lines (s : string) : list string :=
  match s with
  | EmptyString => [EmptyString]
  | String c rest =>
      let keep :=
        match split_lines rest with
        | l :: ls => String c l :: ls
        | [] => [String c EmptyString]
        end in
      if Ascii.eqb c LF then EmptyString :: split_lines rest
      else if Ascii.eqb c CR then
        match rest with
        | String c2 rest' =>
            if Ascii.eqb c2 LF then EmptyString :: split_lines rest' else keep
        | EmptyString => keep
        end
      else keep
  end.

(** [s.replace(/\/$/, "")]: one slash at the very end of [s] is removed. *)
Fixpoint strip_trailing_slash (s : string) : string :=
  match s with
  | EmptyString => EmptyString
  | String c EmptyString => if Ascii.eqb c "/"%char then EmptyString else s
  | String c rest => String c (strip_trailing_slash rest)
  end.

(** [s.endsWith(p)] for a one-character [p]. *)
Fixpoint endsWith_char (c : ascii) (s : string) : bool :=
  match s with
  | EmptyString => false
  | String d EmptyString => Ascii.eqb d c
  | String _ rest => endsWith_char c rest
  end.

(** The decimal numeral of an integer: what [String(n)] and a template
    literal give for an integer [n] of magnitude below 10^21. *)
Definition of_Z (n : Z) : string := NilZero.string_of_int (Z.to_int n).

(** Writes a literal with single quotes standing for double quotes. *)
Fixpoint dq (s : string) : string :=
  match s with
  | EmptyString => EmptyString
  | String c rest => String (if Ascii.eqb c "'"%char then DQ else c) (dq rest)
  end.

End Js.

(** ** JSON values *)

#[local] Set Warnings "-register-all".

Inductive Json : Type :=
| JNull
| JBool (b : bool)
| JNum (q : Q)
| JStr (s : string)
| JArr (items : list Json)
| JObj (fields : list (string * Json)).

Module JsValue.

(** The own property [k] of an object; [undefined] is [None]. *)
Fixpoint lookup (k : string) (fields : list (string * Json)) : option Json :=
  match fields with
  | [] => None
  | (k', v) :: rest => if String.eqb k k' then Some v else lookup k rest
  end.

(** [v.k] for a value [v] that is not [null]: only an object parsed from
    JSON has own properties with the names the program reads. *)
Definition prop (k : string) (v : Json) : option Json :=
  match v with
  | JObj fields => lookup k fields
  | _ => None
  end.

Definition is_zero (q : Q) : bool := Z.eqb (Qnum q) 0.

(** The truth value of a value; [undefined] is [None]. *)
Definition truthy (v : option Json) : bool :=
  match v with
  | None => false
  | Some JNull => false
  | Some (JBool b) => b
  | Some (JNum q) => negb (is_zero q)
  | Some (JStr s) => Js.nonempty s
  | Some (JArr _) => true
  | Some (JObj _) => true
  end.

(** [typeof v === "object"] *)
Definition typeof_object (v : Json) : bool :=
  match v with
  | JNull | JArr _ | JObj _ => true
  | _ => false
  end.

(** [v ?? d]: [d] when [v] is [undefined] or [null]. *)
Definition nullish (v : option Json) : bool :=
  match v with
  | None | Some JNull => true
  | _ => false
  end.

End JsValue.

(** ** An instance of the platform's JSON functions

    [JSON.parse] and [JSON.stringify] for the texts the examples below use:
    numbers are integer numerals, and a string escape is one of the
    two-character escapes. *)

Module MiniJson.

Definition is_ws (c : ascii) : bool :=
  let n := nat_of_ascii c in
  Nat.eqb n 32 || Nat.eqb n 9 || Nat.eqb n 10 || Nat.eqb n 13.

Fixpoint skip_ws (s : string) : string :=
  match s with
  | String c rest => if is_ws c then skip_ws rest else s
  | EmptyString => s
  end.

Definition unescape (c : ascii) : option ascii :=
  if Ascii.eqb c Js.DQ then Some Js.DQ
  else if Ascii.eqb c "\"%char then Some "\"%char
  else if Ascii.eqb c "/"%char then Some "/"%char
  else if Ascii.eqb c "b"%char then Some "008"%char
  else if Ascii.eqb c "f"%char then Some "012"%char
  else if Ascii.eqb c "n"%char then Some "010"%char
  else if Ascii.eqb c "r"%char then Some "013"%char
  else if Ascii.eqb c "t"%char then Some "009"%char
  else None.

(** The text of a string literal after its opening quote, and what follows
    the closing quote. *)
Fixpoint parse_string (s : string) : option (string * string) :=
  match s with
  | EmptyString => None
  | String c rest =>
      if Ascii.eqb c Js.DQ then Some (EmptyString, rest)
      else if Ascii.eqb c "\"%char then
        match rest with
        | String e rest' =>
            match unescape e, parse_string rest' with
            | Some ch, Some (t, r) => Some (String ch t, r)
            | _, _ => None
            end
        | EmptyString => None
        end
      else if Nat.ltb (nat_of_ascii c) 32 then None
      else
        match parse_string rest with
        | Some (t, r) => Some (String c t, r)
        | None => None
        end
  end.

Definition digit (c : ascii) : option Z :=
  let n := nat_of_ascii c in
  if Nat.leb 48 n && Nat.leb n 57 then Some (Z.of_nat (n - 48)) else None.

(** The digits at the head of [s], read after the value [acc]. *)
Fixpoint parse_digits (acc : Z) (s : string) : Z * string :=
  match s with
  | String c rest =>
      match digit c with
      | Some d => parse_digits (10 * acc + d) rest
      | None => (acc, s)
      end
  | EmptyString => (acc, s)
  end.

Definition starts_number_tail (s : string) : bool :=
  match s with
  | String c _ =>
      Ascii.eqb c "."%char || Ascii.eqb c "e"%char || Ascii.eqb c "E"%char
  | EmptyString => false
  end.

(** An integer numeral without sign: no leading zero before another digit. *)
Definition parse_nat (s : string) : option (Z * string) :=
  match s with
  | String c rest =>
      match digit c with
      | Some d =>
          let (n, r) := parse_digits d rest in
          if (Z.eqb d 0 && negb (String.eqb r rest)) || starts_number_tail r
          then None else Some (n, r)
      | None => None
      end
  | EmptyString => None
  end.

(** An object with [k] set to [v]: a repeated name keeps its place and
    takes the later value. *)
Fixpoint set_field (k : string) (v : Json) (fields : list (string * Json))
    : list (string * Json) :=
  match fields with
  | [] => [(k, v)]
  | (k', v') :: rest =>
      if String.eqb k k' then (k, v) :: rest else (k', v') :: set_field k v rest
  end.

Inductive Mode : Type :=
| MValue
| MMembers (acc : list (string * Json))
| MItems (acc : list Json).

(** A value at the head of [s], or the rest of an object or an array after
    its opening bracket; with what follows it. *)
Fixpoint parse_at (fuel : nat) (m : Mode) (s : string) : option (Json * string) :=
  match fuel with
  | O => None
  | S fuel' =>
      match m with
      | MValue =>
          match skip_ws s with
          | EmptyString => None
          | String c rest =>
              if Ascii.eqb c "{"%char then
                match skip_ws rest with
                | String c2 rest2 =>
                    if Ascii.eqb c2 "}"%char then Some (JObj [], rest2)
                    else parse_at fuel' (MMembers []) rest
                | EmptyString => None
                end
              else if Ascii.eqb c "["%char then
                match skip_ws rest with
                | String c2 rest2 =>
                    if Ascii.eqb c2 "]"%char then Some (JArr [], rest2)
                    else parse_at fuel' (MItems []) rest
                | EmptyString => None
                end
              else if Ascii.eqb c Js.DQ then
                match parse_string rest with
                | Some (t, r) => Some (JStr t, r)
                | None => None
                end
              else if String.prefix "null" (String c rest) then Some (JNull, Js.slice 4 (String c rest))
              else if String.prefix "true" (String c rest) then Some (JBool true, Js.slice 4 (String c rest))
              else if String.prefix "false" (String c rest) then Some (JBool false, Js.slice 5 (String c rest))
              else if Ascii.eqb c "-"%char then
                match parse_nat rest with
                | Some (n, r) => Some (JNum (inject_Z (- n)), r)
                | None => None
                end
              else
                match parse_nat (String c rest) with
                | Some (n, r) => Some (JNum (inject_Z n), r)
                | None => None
                end
          end
      | MMembers acc =>
          match skip_ws s with
          | String c rest =>
              if Ascii.eqb c Js.DQ then
                match parse_string rest with
                | Some (k, r1) =>
                    match skip_ws r1 with
                    | String c1 r2 =>
                        if Ascii.eqb c1 ":"%char then
                          match parse_at fuel' MValue r2 with
                          | Some (v, r3) =>
                              match skip_ws r3 with
                              | String c3 r4 =>
                                  if Ascii.eqb c3 ","%char
                                  then parse_at fuel' (MMembers (set_field k v acc)) r4
                                  else if Ascii.eqb c3 "}"%char
                                  then Some (JObj (set_field k v acc), r4)
                                  else None
                              | EmptyString => None
                              end
                          | None => None
                          end
                        else None
                    | EmptyString => None
                    end
                | None => None
                end
              else None
          | EmptyString => None
          end
      | MItems acc =>
          match parse_at fuel' MValue s with
          | Some (v, r) =>
              match skip_ws r with
              | String c r' =>
                  if Ascii.eqb c ","%char then parse_at fuel' (MItems (acc ++ [v])) r'
                  else if Ascii.eqb c "]"%char then Some (JArr (acc ++ [v]), r')
                  else None
              | EmptyString => None
              end
          | None => None
          end
      end
  end.

(** [JSON.parse(s)]; [None] for a text that is not one value. *)
Definition parse (s : string) : option Json :=
  match parse_at (2 * String.length s + 2) MValue s with
  | Some (v, rest) =>
      match skip_ws rest with
      | EmptyString => Some v
      | String _ _ => None
      end
  | None => None
  end.

Definition syntax_message (s : string) : string := "Unexpected token in JSON".

Fixpoint escape (s : string) : string :=
  match s with
  | EmptyString => EmptyString
  | String c rest =>
      (if Ascii.eqb c Js.DQ then String "\"%char (String Js.DQ EmptyString)
       else if Ascii.eqb c "\"%char then "\\"
       else if Ascii.eqb c "010"%char then "\n"
       else if Ascii.eqb c "013"%char then "\r"
       else if Ascii.eqb c "009"%char then "\t"
       else String c EmptyString) ++ escape rest
  end.

Definition quote (s : string) : string :=
  String Js.DQ (escape s) ++ String Js.DQ EmptyString.

(** [String(x)] for an integer [x]. *)
Definition number (q : Q) : string :=
  match Qden q with
  | xH => Js.of_Z (Qnum q)
  | d => Js.of_Z (Qnum q) ++ "/" ++ Js.of_Z (Zpos d)
  end.

(** [JSON.stringify(v)] *)
Fixpoint stringify (v : Json) : string :=
  match v with
  | JNull => "null"
  | JBool true => "true"
  | JBool false => "false"
  | JNum q => number q
  | JStr s => quote s
  | JArr items => "[" ++ Js.join "," (map stringify items) ++ "]"
  | JObj fields =>
      "{" ++ Js.join "," (map (fun kv => quote (fst kv) ++ ":" ++ stringify (snd kv)) fields)
          ++ "}"
  end.

(** [JSON.stringify(v, null, 2)] at the indentation [pad]. *)
Fixpoint pretty_at (pad : string) (v : Json) : string :=
  let inner := pad ++ "  " in
  let nl := String Js.LF EmptyString in
  match v with
  | JArr [] => "[]"
  | JObj [] => "{}"
  | JArr items =>
      "[" ++ nl ++ Js.join ("," ++ nl) (map (fun x => inner ++ pretty_at inner x) items)
          ++ nl ++ pad ++ "]"
  | JObj fields =>
      "{" ++ nl
          ++ Js.join ("," ++ nl)
               (map (fun kv => inner ++ quote (fst kv) ++ ": " ++ pretty_at inner (snd kv)) fields)
          ++ nl ++ pad ++ "}"
  | _ => stringify v
  end.

Definition pretty (v : Json) : string := pretty_at EmptyString v.

End MiniJson.

(** ** Exceptions and the monad of asynchronous functions *)

Record Exn : Type := mkExn { exn_name : string; exn_message : string }.

(** [new Error(message)] *)
Definition Error (message : string) : Exn := mkExn "Error" message.

Inductive result (A : Type) : Type :=
| Ok (a : A)
| Throw (e : Exn).
Arguments Ok {A} a.
Arguments Throw {A} e.

Definition M (S A : Type) : Type := S -> result A * S.

Definition ret {S A} (a : A) : M S A := fun s => (Ok a, s).

Definition throw {S A} (e : Exn) : M S A := fun s => (Throw e, s).

Definition bind {S A B} (c : M S A) (k : A -> M S B) : M S B :=
  fun s =>
    match c s with
    | (Ok a, s') => k a s'
    | (Throw e, s') => (Throw e, s')
    end.

(** [try { c } catch (error) { h error }] *)
Definition try_catch {S A} (c : M S A) (h : Exn -> M S A) : M S A :=
  fun s =>
    match c s with
    | (Ok a, s') => (Ok a, s')
    | (Throw e, s') => h e s'
    end.

Notation "x <- c ;; k" := (bind c (fun x => k))
  (at level 61, c at next level, right associativity).
Notation "c ;;; k" := (bind c (fun _ => k))
  (at level 61, right associativity).

Definition is_ok {A} (r : result A) : bool :=
  match r with Ok _ => true | Throw _ => false end.

(** ** The network *)

(** A request as [fetch] receives it. *)
Record Request : Type := mkRequest {
  req_url : string;
  req_method : string;
  req_headers : list (string * string);
  req_body : string
}.

(** What reading the body of a response gives: its text, a failure of the
    connection, or the abort signal of the request's timer. *)
Inductive BodyOutcome : Type :=
| BodyText (s : string)
| BodyFails (e : Exn)
| BodyTimesOut.

(** A response: [headers] is the header list of its [Headers] object, names
    in lower case as that object keeps them. *)
Record Response : Type := mkResponse {
  status : Z;
  statusText : string;
  headers : list (string * string);
  body : BodyOutcome
}.

(** What a [fetch] gives: a rejection, the abort signal of the request's
    timer before any response, or a response. *)
Inductive FetchOutcome : Type :=
| NetworkFails (e : Exn)
| TimesOut
| Responds (r : Response).

(** The exception an aborted [fetch] or body read rejects with. *)
Definition AbortError : Exn := mkExn "AbortError" "This operation was aborted".

(** [response.ok] *)
Definition ok (r : Response) : bool := (200 <=? status r) && (status r <=? 299).

(** [headers.get(name)]: the values of the headers of that name, joined. *)
Definition headers_get (h : list (string * string)) (name : string) : option string :=
  match map snd (filter (fun kv => String.eqb (fst kv) name) h) with
  | [] => None
  | vs => Some (Js.join ", " vs)
  end.

(** The world outside the program: [net n req] is what the network gives to
    the [n]-th [fetch] of the run when it carries [req]; [sent] lists the
    requests issued so far, oldest first. *)
Record World : Type := mkWorld {
  net : nat -> Request -> FetchOutcome;
  sent : list Request
}.

(** ** The protocol client, [client.ts] *)

Record McpClientOptions : Type := mkOptions {
  opt_url : string;
  opt_gatewayToken : option string;
  opt_backendToken : option string;
  opt_timeout : option Z
}.

Record JsonRpcRequest : Type := mkRpc {
  rpc_id : option Z;
  rpc_method : string;
  rpc_params : option Json
}.

Record McpClient : Type := mkClient {
  url : string;
  gatewayToken : option string;
  backendToken : option string;
  timeout : Z;
  requestId : Z;
  sessionId : option string
}.

(** The state a method of a client runs in: the instance and the world. *)
Record ClientWorld : Type := mkCW { this : McpClient; world : World }.

Definition set_sessionId (v : option string) (c : McpClient) : McpClient :=
  mkClient (url c) (gatewayToken c) (backendToken c) (timeout c) (requestId c) v.

Definition set_requestId (v : Z) (c : McpClient) : McpClient :=
  mkClient (url c) (gatewayToken c) (backendToken c) (timeout c) v (sessionId c).

(** [new McpClient(options)] *)
Definition constructor (options : McpClientOptions) : McpClient :=
  mkClient (Js.strip_trailing_slash (opt_url options))
           (opt_gatewayToken options)
           (opt_backendToken options)
           (match opt_timeout options with Some t => t | None => 30000 end)
           0
           None.

(** The truth value of an optional string. *)
Definition truthy_str (s : option string) : bool :=
  match s with Some v => Js.nonempty v | None => false end.

Definition bearer (token : option string) : string :=
  "Bearer " ++ match token with Some t => t | None => EmptyString end.

Definition buildHeaders (c : McpClient) : list (string * string) :=
  [("content-type", "application/json");
   ("accept", "application/json, text/event-stream");
   ("user-agent", "mcp-ink-cli/0.1.0")]
  ++ (if truthy_str (gatewayToken c) then [("x-authorization", bearer (gatewayToken c))] else [])
  ++ (if truthy_str (backendToken c) then [("authorization", bearer (backendToken c))] else [])
  ++ (match sessionId c with
      | Some s => if Js.nonempty s then [("mcp-session-id", s)] else []
      | None => []
      end).

(** [{jsonrpc: "2.0"}] *)
Definition empty_success : Json := JObj [("jsonrpc", JStr "2.0")].

Definition sse_diagnostic : string := "No JSON payload found in SSE response".

Definition sse_error : Json :=
  JObj [("jsonrpc", JStr "2.0"); ("error", JObj [("message", JStr sse_diagnostic)])].

(** The object a request payload is, fields in the order they are written;
    an absent field is left out. *)
Definition payload_json (p : JsonRpcRequest) : Json :=
  JObj ([("jsonrpc", JStr "2.0")]
        ++ (match rpc_id p with Some i => [("id", JNum (inject_Z i))] | None => [] end)
        ++ [("method", JStr (rpc_method p))]
        ++ (match rpc_params p with Some v => [("params", v)] | None => [] end)).

Definition initialize_params : Json :=
  JObj [("protocolVersion", JStr "2024-11-05");
        ("capabilities", JObj []);
        ("clientInfo", JObj [("name", JStr "mcp-ink-cli"); ("version", JStr "0.1.0")])].

(** [fetch(url, init)]: the request is logged and the network answers. *)
Definition fetch (req : Request) : M ClientWorld Response :=
  fun s =>
    let w := world s in
    let s' := mkCW (this s) (mkWorld (net w) (sent w ++ [req])) in
    match net w (length (sent w)) req with
    | NetworkFails e => (Throw e, s')
    | TimesOut => (Throw AbortError, s')
    | Responds r => (Ok r, s')
    end.

(** [response.text()] *)
Definition text (r : Response) : M ClientWorld string :=
  match body r with
  | BodyText s => ret s
  | BodyFails e => throw e
  | BodyTimesOut => throw AbortError
  end.

Definition get_this : M ClientWorld McpClient := fun s => (Ok (this s), s).

Definition update_this (f : McpClient -> McpClient) : M ClientWorld unit :=
  fun s => (Ok tt, mkCW (f (this s)) (world s)).

Definition nextRequestId : M ClientWorld Z :=
  update_this (fun c => set_requestId (requestId c + 1) c) ;;;
  c <- get_this ;;
  ret (requestId c).

Section Platform.

(** [JSON.parse]: [None] when it throws a [SyntaxError], whose message is
    [JSON_syntax_message] of the text. *)
Variable JSON_parse : string -> option Json.
Variable JSON_syntax_message : string -> string.
(** [JSON.stringify(v)] and [JSON.stringify(v, null, 2)]. *)
Variable JSON_stringify : Json -> string.
Variable JSON_stringify_pretty : Json -> string.
(** [String(x)] for a number [x]. *)
Variable Number_toString : Q -> string.

Definition SyntaxError (s : string) : Exn := mkExn "SyntaxError" (JSON_syntax_message s).

Definition JSON_parse_m {S} (s : string) : M S Json :=
  match JSON_parse s with
  | Some v => ret v
  | None => throw (SyntaxError s)
  end.

(** [String(v)] and [`${v}`]. *)
Fixpoint js_String (v : Json) : string :=
  match v with
  | JNull => "null"
  | JBool true => "true"
  | JBool false => "false"
  | JNum q => Number_toString q
  | JStr s => s
  | JArr items =>
      Js.join "," (map (fun x => match x with JNull => EmptyString | _ => js_String x end) items)
  | JObj _ => "[object Object]"
  end.

Definition http_prefix (status : Z) (statusText : string) : string :=
  "HTTP " ++ Js.of_Z status ++ " " ++ statusText.

(** The message of the error [buildHttpError] makes: reading [json.error]
    of a parsed [null] throws inside the [try], which falls through to the
    raw body like a parse failure. *)
Definition http_error_message (status : Z) (statusText : string) (body : string) : string :=
  let fallback :=
    let normalizedBody := if Js.nonempty body then " " ++ Js.trim body else EmptyString in
    http_prefix status statusText ++ "." ++ normalizedBody in
  match JSON_parse body with
  | Some JNull => fallback
  | Some json =>
      match JsValue.prop "error" json with
      | Some err =>
          if JsValue.truthy (Some err) && JsValue.typeof_object err then
            let message :=
              match JsValue.prop "message" err with
              | Some m => if JsValue.nullish (Some m) then JSON_stringify err else js_String m
              | None => JSON_stringify err
              end in
            http_prefix status statusText ++ ": " ++ message
          else fallback
      | None => fallback
      end
  | None => fallback
  end.

Definition buildHttpError (status : Z) (statusText : string) (body : string) : Exn :=
  Error (http_error_message status statusText body).

Definition sse_payload (line : string) : string := Js.trim (Js.slice 5 line).

(** The loop of [parseSsePayload] over the lines. *)
Fixpoint sse_scan (lines : list string) : option Json :=
  match lines with
  | [] => None
  | line :: rest =>
      if Js.startsWith "data:" line then
        let payload := sse_payload line in
        if Js.nonempty payload then
          match JSON_parse payload with
          | Some v => Some v
          | None => sse_scan rest
          end
        else sse_scan rest
      else sse_scan rest
  end.

Definition parseSsePayload (raw : string) : Json :=
  match sse_scan (Js.split_lines raw) with
  | Some v => v
  | None => sse_error
  end.

(** The request [execute] hands to [fetch]. *)
Definition request_of (c : McpClient) (payload : JsonRpcRequest) : Request :=
  mkRequest (url c) "POST" (buildHeaders c) (JSON_stringify (payload_json payload)).

Definition timeout_message (c : McpClient) : string :=
  "Request to " ++ url c ++ " timed out after " ++ Js.of_Z (timeout c) ++ " ms".

(** [execute(payload, {ignoreErrors})].  The timer set at the start is what
    makes the network give [TimesOut] or [BodyTimesOut]; it is cleared on
    every way out and holds no state of the instance. *)
Definition execute (payload : JsonRpcRequest) (ignoreErrors : bool) : M ClientWorld Json :=
  try_catch
    (c <- get_this ;;
     response <- fetch (request_of c payload) ;;
     update_this (fun c =>
       set_sessionId (match headers_get (headers response) "mcp-session-id" with
                      | Some s => Some s
                      | None => sessionId c
                      end) c) ;;;
     let contentType :=
       match headers_get (headers response) "content-type" with
       | Some s => s
       | None => EmptyString
       end in
     rawBody <- text response ;;
     if negb (ok response) && negb ignoreErrors then
       throw (buildHttpError (status response) (statusText response) rawBody)
     else if negb (Js.nonempty rawBody) then ret empty_success
     else if Js.includes "text/event-stream" contentType then ret (parseSsePayload rawBody)
     else JSON_parse_m rawBody)
    (fun error =>
       if ignoreErrors then ret empty_success
       else if String.eqb (exn_name error) "AbortError" then
         c <- get_this ;;
         throw (Error (timeout_message c))
       else throw error).

Definition sendInitializedNotification : M ClientWorld unit :=
  try_catch
    (execute (mkRpc None "notifications/initialized" None) true ;;; ret tt)
    (fun _ => ret tt).

Definition initialize : M ClientWorld Json :=
  id <- nextRequestId ;;
  result <- execute (mkRpc (Some id) "initialize" (Some initialize_params)) false ;;
  sendInitializedNotification ;;;
  ret result.

Definition ping : M ClientWorld Json :=
  id <- nextRequestId ;;
  execute (mkRpc (Some id) "ping" None) false.

Definition listTools : M ClientWorld Json :=
  id <- nextRequestId ;;
  execute (mkRpc (Some id) "tools/list" None) false.

Definition callTool (name : string) (args : Json) : M ClientWorld Json :=
  id <- nextRequestId ;;
  execute (mkRpc (Some id) "tools/call"
                 (Some (JObj [("name", JStr name); ("arguments", args)]))) false.

(** ** The gateway commands, [runtime/mcp.ts] *)

(** A method body run on a client made for the occasion: the instance is
    local to the call and gone when it ends. *)
Definition with_new_client {A} (c : McpClient) (body : M ClientWorld A) : M World A :=
  fun w => let (r, s) := body (mkCW c w) in (r, world s).

Record McpExecutionResult : Type := mkExec { handshake : Json; response : Json }.

Definition call_required : string := "Tool name and args are required for /call.".

Definition executeMcpCommand (command : string) (gatewayUrl : string)
    (gatewayToken backendToken : option string)
    (callOptions : option (string * Json)) : M World McpExecutionResult :=
  with_new_client (constructor (mkOptions gatewayUrl gatewayToken backendToken None))
    (handshake <- initialize ;;
     if String.eqb command "ping" then
       r <- ping ;; ret (mkExec handshake r)
     else if String.eqb command "list" then
       r <- listTools ;; ret (mkExec handshake r)
     else if String.eqb command "call" then
       match callOptions with
       | None => throw (Error call_required)
       | Some (tool, args) => r <- callTool tool args ;; ret (mkExec handshake r)
       end
     else ret (mkExec handshake handshake)).

Definition TypeError (message : string) : Exn := mkExn "TypeError" message.

(** [formatMcpResult]: reading [handshake.result] throws when the handshake
    is [null]. *)
Definition formatMcpResult (command : string) (handshake response : Json)
    (tool : option string) : result (list string) :=
  match handshake with
  | JNull => Throw (TypeError "Cannot read properties of null (reading 'result')")
  | _ =>
      let sessionId :=
        match JsValue.prop "result" handshake with
        | Some r => if JsValue.nullish (Some r) then None else JsValue.prop "sessionId" r
        | None => None
        end in
      let session_lines :=
        match sessionId with
        | Some v => if JsValue.truthy (Some v) then ["Session established: " ++ js_String v] else []
        | None => []
        end in
      Ok (app session_lines (
          if String.eqb command "ping" then
            ["Ping response:"; JSON_stringify_pretty response]
          else if String.eqb command "list" then
            ["Available tools:"; JSON_stringify_pretty response]
          else if String.eqb command "call" then
            [Js.dq "Tool '" ++
               match tool with Some t => t | None => "undefined" end ++
               Js.dq "' response:";
             JSON_stringify_pretty response]
          else if String.eqb command "init" then
            ["Initialization payload:"; JSON_stringify_pretty handshake]
          else []))
  end.

Definition of_result {S A} (r : result A) : M S A := fun s => (r, s).

(** ** The dispatcher, [commands/executor.ts] *)

Record TaskContext : Type := mkContext {
  ctx_gatewayUrl : string;
  ctx_gatewayBaseUrl : string;
  ctx_gatewayToken : option string;
  ctx_backendToken : option string
}.

(** The shapes [chat/commandParser.ts] declares, as [executor.ts] reads
    them. *)
Record CallCommand : Type := mkCall { call_tool : option string; argsJson : option string }.

Record TaskCommand : Type := mkTask { category : string; key : string; rawArgs : string }.

Inductive ParsedCommand : Type :=
| PHelp
| PPing
| PList
| PInit
| PCall (c : CallCommand)
| PTask (t : TaskCommand)
| PUnknown (message : string).

Record ScriptCommand : Type := mkScriptCommand { sc_command : string; sc_args : list string }.

Record ScriptResult : Type := mkScriptResult {
  sr_command : ScriptCommand;
  stdout : string;
  stderr : string;
  exitCode : option Z
}.

Record SlashResult : Type := mkSlash { lines : list string; isError : option bool }.

(** What [executor.ts] imports from files that are not at hand: the parser of
    a command line, the resolution of a task against the catalog, and the
    runner of the task's script. *)
Variable TaskDefinition : Type.
Variable FieldValues : Type.
Variable parseCommand : string -> ParsedCommand.
Variable resolveTaskCommand : TaskCommand -> string + (TaskDefinition * FieldValues).
Variable runScriptTaskToString :
  string -> TaskDefinition -> FieldValues -> TaskContext -> M World ScriptResult.

(** The dashes of the source text stand here as their UTF-8 bytes. *)
Definition overviewMessage : string :=
  Js.join (String Js.LF EmptyString)
    ["Available commands:";
     "  /ping — check MCP gateway connectivity";
     "  /list — list MCP tools";
     "  /call tool=<name> args='<json>' — invoke a tool";
     "  /init — initialise a session";
     "  /service|/import|/user|/diagnostic ... — run registry scripts";
     "Use natural language when ANTHROPIC_API_KEY is set to let Claude decide which tools to call."].

Definition executeMcp (command : string) (context : TaskContext) : M World SlashResult :=
  r <- executeMcpCommand command (ctx_gatewayUrl context) (ctx_gatewayToken context)
                         (ctx_backendToken context) None ;;
  lines <- of_result (formatMcpResult command (handshake r) (response r) None) ;;
  ret (mkSlash lines None).

Definition tool_required : string := "Tool name is required for /call.".

Definition executeCall (parsed : CallCommand) (context : TaskContext) : M World SlashResult :=
  if negb (truthy_str (call_tool parsed)) then
    ret (mkSlash [tool_required] (Some true))
  else
    let tool := match call_tool parsed with Some t => t | None => EmptyString end in
    let parsed_args :=
      if truthy_str (argsJson parsed) then
        JSON_parse (match argsJson parsed with Some a => a | None => EmptyString end)
      else Some (JObj []) in
    match parsed_args with
    | None =>
        ret (mkSlash ["Invalid JSON for args: " ++
                      JSON_syntax_message
                        (match argsJson parsed with Some a => a | None => EmptyString end)]
                     (Some true))
    | Some args =>
        r <- executeMcpCommand "call" (ctx_gatewayUrl context) (ctx_gatewayToken context)
                               (ctx_backendToken context) (Some (tool, args)) ;;
        lines <- of_result (formatMcpResult "call" (handshake r) (response r) (Some tool)) ;;
        ret (mkSlash lines None)
    end.

Definition LFs : string := String Js.LF EmptyString.

Definition executeSlashCommand (input : string) (context : TaskContext) : M World SlashResult :=
  match parseCommand input with
  | PHelp => ret (mkSlash [overviewMessage] None)
  | PPing => executeMcp "ping" context
  | PList => executeMcp "list" context
  | PInit => executeMcp "init" context
  | PCall parsed => executeCall parsed context
  | PTask parsed =>
      match resolveTaskCommand parsed with
      | inl error => ret (mkSlash [error] (Some true))
      | inr (task, values) =>
          result <- runScriptTaskToString (category parsed) task values context ;;
          let lines :=
            Js.join (LFs ++ LFs)
              (filter (fun line => Js.nonempty line && Js.nonempty (Js.trim line))
                 ["$ " ++ sc_command (sr_command result) ++ " " ++
                    Js.join " " (sc_args (sr_command result));
                  Js.trim (stdout result);
                  if Js.nonempty (stderr result)
                  then "stderr:" ++ LFs ++ Js.trim (stderr result)
                  else EmptyString;
                  "exitCode: " ++ Js.of_Z (match exitCode result with Some n => n | None => 0 end)]) in
          ret (mkSlash [lines] None)
      end
  | PUnknown message => ret (mkSlash [message] (Some true))
  end.

(** ** The tools of the agent, [agent/tools.ts] *)

Inductive InvocationType : Type := TMcp | TTask | TUnknown.

Record AgentToolInvocation : Type := mkInvocation {
  inv_type : InvocationType;
  inv_name : string;
  inv_input : Json
}.

(** A tool-use block of a provider response. *)
Record ToolUse : Type := mkToolUse { tu_id : string; tu_name : string; tu_input : Json }.

Record ToolResult : Type := mkToolResult { output : string; tr_isError : option bool }.

Definition mapToolCall (tool : ToolUse) : AgentToolInvocation :=
  if String.eqb (tu_name tool) "mcp_command" then
    mkInvocation TMcp (tu_name tool) (tu_input tool)
  else if String.eqb (tu_name tool) "registry_task" then
    mkInvocation TTask (tu_name tool) (tu_input tool)
  else mkInvocation TUnknown (tu_name tool) (tu_input tool).

(** [input.k] where [input] may be [null]: reading a property of [null]
    throws. *)
Definition read_input {S} (input : Json) (k : string) : M S (option Json) :=
  match input with
  | JNull => throw (TypeError ("Cannot read properties of null (reading '" ++ k ++ "')"))
  | _ => ret (JsValue.prop k input)
  end.

(** [String(v || "")] *)
Definition string_or_empty (v : option Json) : string :=
  match v with
  | Some x => if JsValue.truthy v then js_String x else EmptyString
  | None => EmptyString
  end.

Definition executeMappedTool (invocation : AgentToolInvocation) (gatewayUrl : string)
    (context : TaskContext) : M World ToolResult :=
  match inv_type invocation with
  | TMcp =>
      c <- read_input (inv_input invocation) "command" ;;
      let command := string_or_empty c in
      if negb (Js.nonempty command) then
        ret (mkToolResult "Missing command field" (Some true))
      else
        t <- read_input (inv_input invocation) "tool" ;;
        let toolName := if JsValue.truthy t then Some (string_or_empty t) else None in
        a <- read_input (inv_input invocation) "args" ;;
        let args :=
          match a with
          | Some v => if JsValue.truthy a && JsValue.typeof_object v then v else JObj []
          | None => JObj []
          end in
        try_catch
          (r <- executeMcpCommand command gatewayUrl (ctx_gatewayToken context)
                  (ctx_backendToken context)
                  (if truthy_str toolName
                   then Some (match toolName with Some n => n | None => EmptyString end, args)
                   else None) ;;
           ret (mkToolResult
                  (JSON_stringify_pretty
                     (JObj [("handshake", handshake r); ("response", response r)]))
                  None))
          (fun error => ret (mkToolResult (exn_message error) (Some true)))
  | TTask =>
      c <- read_input (inv_input invocation) "command" ;;
      let commandText := Js.trim (string_or_empty c) in
      let commandText :=
        if Js.startsWith "/" commandText then commandText else "/" ++ commandText in
      result <- executeSlashCommand commandText context ;;
      ret (mkToolResult (Js.join LFs (lines result)) (isError result))
  | TUnknown =>
      ret (mkToolResult ("Unknown tool invocation: " ++ inv_name invocation) (Some true))
  end.

Definition buildTaskContext (gatewayUrl baseUrl : string)
    (gatewayToken backendToken : option string) : TaskContext :=
  mkContext gatewayUrl baseUrl gatewayToken backendToken.

Definition anthropicTools : Json :=
  JArr
    [JObj
       [("name", JStr "mcp_command");
        ("description", JStr "Call MCP gateway commands (ping, list, call, init).");
        ("input_schema",
         JObj
           [("type", JStr "object");
            ("properties",
             JObj
               [("command",
                 JObj [("type", JStr "string");
                       ("enum", JArr [JStr "ping"; JStr "list"; JStr "call"; JStr "init"]);
                       ("description", JStr "Which MCP command to execute.")]);
                ("tool",
                 JObj [("type", JStr "string");
                       ("description", JStr "Tool name for the call command")]);
                ("args",
                 JObj [("type", JStr "object");
                       ("description", JStr "JSON arguments for the tool.")])]);
            ("required", JArr [JStr "command"])])];
     JObj
       [("name", JStr "registry_task");
        ("description",
         JStr "Run service management, imports, user management, or diagnostics tasks.");
        ("input_schema",
         JObj
           [("type", JStr "object");
            ("properties",
             JObj
               [("command",
                 JObj [("type", JStr "string");
                       ("description",
                        JStr "Slash command matching the CLI syntax, e.g. /service add configPath=...")])]);
            ("required", JArr [JStr "command"])])]].

(** ** The agent loop, [agent/agentRunner.ts] *)

Inductive Role : Type := RUser | RAssistant | RSystem.

Definition role_name (r : Role) : string :=
  match r with RUser => "user" | RAssistant => "assistant" | RSystem => "system" end.

Definition is_system (r : Role) : bool :=
  match r with RSystem => true | _ => false end.

Definition is_user_or_assistant (r : Role) : bool :=
  match r with RUser | RAssistant => true | RSystem => false end.

Record AgentMessage : Type := mkMessage { role : Role; content : string }.

Record AgentConfig : Type := mkConfig {
  cfg_gatewayUrl : string;
  cfg_gatewayBaseUrl : string;
  cfg_gatewayToken : option string;
  cfg_backendToken : option string;
  cfg_model : option string
}.

Record ToolOutput : Type := mkToolOutput {
  to_name : string;
  to_output : string;
  to_isError : option bool
}.

Record AgentResult : Type := mkAgentResult {
  messages : list AgentMessage;
  toolOutputs : list ToolOutput
}.

(** A content block: text, a tool use, a tool result, or a block of another
    type. *)
Inductive Block : Type :=
| BText (text : string)
| BToolUse (call : ToolUse)
| BToolResult (tool_use_id : string) (result_content : string)
| BOther (type : string).

(** The content of a conversation entry: the text of a message of the
    history, or a list of blocks. *)
Inductive Content : Type :=
| CString (s : string)
| CBlocks (blocks : list Block).

Record ConversationEntry : Type := mkEntry { entry_role : string; entry_content : Content }.

Record ProviderRequest : Type := mkProviderRequest {
  pr_model : string;
  pr_system : string;
  pr_messages : list ConversationEntry;
  pr_max_tokens : Z;
  pr_tools : Json
}.

Record ProviderResponse : Type := mkProviderResponse { resp_content : option (list Block) }.

(** The provider: [provider n req] is what its [n]-th call of the run gives
    when it carries [req]. *)
Definition Provider : Type := nat -> ProviderRequest -> result ProviderResponse.

(** The state of an agent turn: the provider requests made so far, oldest
    first, and the world the tools act on. *)
Record AgentWorld : Type := mkAW { asked : list ProviderRequest; outside : World }.

Definition lift_world {A} (c : M World A) : M AgentWorld A :=
  fun s => let (r, w) := c (outside s) in (r, mkAW (asked s) w).

(** [client.beta.tools.messages.create(req)] *)
Definition create (client : Provider) (req : ProviderRequest) : M AgentWorld ProviderResponse :=
  fun s => (client (length (asked s)) req, mkAW (asked s ++ [req]) (outside s)).

(** [getAnthropicClient()] of [agent/anthropicClient.ts], and the
    [ANTHROPIC_MODEL] variable of the process environment. *)
Variable getAnthropicClient : result Provider.
Variable ANTHROPIC_MODEL : option string.

Definition DEFAULT_MODEL : string :=
  match ANTHROPIC_MODEL with Some m => m | None => "claude-haiku-4-5" end.

Definition buildSystemPrompt : string :=
  Js.join LFs
    ["You are an MCP Registry assistant with direct access to CLI tools.";
     "";
     "Tools available:";
     "- mcp_command: call MCP gateway commands (ping, list, call, init)";
     "- registry_task: invoke service management, imports, user management, diagnostics via slash commands.";
     "";
     "Behaviours:";
     "- Use tools whenever the user asks for an action.";
     "- Always prefer precise tool usage with correct parameters.";
     "- Summarise results for the user after tool invocations.";
     "- Never expose secrets or raw environment details."].

Definition limit_message : string := "Reached tool usage limit without final response.".

(** [response.content ?? []] *)
Definition blocks_of (response : ProviderResponse) : list Block :=
  match resp_content response with Some l => l | None => [] end.

Definition tool_uses (blocks : list Block) : list ToolUse :=
  flat_map (fun b => match b with BToolUse c => [c] | _ => [] end) blocks.

Definition is_text (b : Block) : bool :=
  match b with BText _ => true | _ => false end.

Definition text_of (b : Block) : string :=
  match b with BText t => t | _ => EmptyString end.

(** The variables of the loop of [runAgentTurn]. *)
Record LoopState : Type := mkLoop {
  toolIteration : nat;
  conversation : list ConversationEntry;
  finalMessages : list AgentMessage;
  loop_outputs : list ToolOutput
}.

(** The [for] loop over the tool calls of one response. *)
Fixpoint run_tool_calls (config : AgentConfig) (context : TaskContext)
    (calls : list ToolUse) (st : LoopState) : M AgentWorld LoopState :=
  match calls with
  | [] => ret st
  | call :: rest =>
      let invocation := mapToolCall call in
      result <- lift_world (executeMappedTool invocation (cfg_gatewayUrl config) context) ;;
      run_tool_calls config context rest
        (mkLoop (toolIteration st)
                (conversation st ++
                   [mkEntry "user" (CBlocks [BToolResult (tu_id call) (output result)])])
                (finalMessages st)
                (loop_outputs st ++
                   [mkToolOutput (tu_name call) (output result) (tr_isError result)]))
  end.

(** The [while (toolIteration < 5)] loop.  [turns] bounds the iterations
    left: it starts at 5 and goes down as [toolIteration] goes up, so the
    guard fails when it reaches 0. *)
Fixpoint while_loop (client : Provider) (systemPrompt : string) (config : AgentConfig)
    (context : TaskContext) (turns : nat) (st : LoopState) : M AgentWorld LoopState :=
  match turns with
  | O => ret st
  | S turns' =>
      if (toolIteration st <? 5)%nat then
        response <- create client
                      (mkProviderRequest
                         (match cfg_model config with Some m => m | None => DEFAULT_MODEL end)
                         systemPrompt (conversation st) 1024 anthropicTools) ;;
        let outputBlocks := blocks_of response in
        let toolCalls := tool_uses outputBlocks in
        let textBlocks := filter is_text outputBlocks in
        match toolCalls with
        | [] =>
            let content := Js.join LFs (map text_of textBlocks) in
            ret (mkLoop (toolIteration st) (conversation st)
                        (finalMessages st ++ [mkMessage RAssistant content])
                        (loop_outputs st))
        | _ :: _ =>
            st1 <- run_tool_calls config context toolCalls
                     (mkLoop (toolIteration st)
                             (conversation st ++ [mkEntry "assistant" (CBlocks outputBlocks)])
                             (finalMessages st) (loop_outputs st)) ;;
            while_loop client systemPrompt config context turns'
              (mkLoop (S (toolIteration st1)) (conversation st1)
                      (finalMessages st1) (loop_outputs st1))
        end
      else ret st
  end.

Definition runAgentTurn (history : list AgentMessage) (config : AgentConfig)
    : M AgentWorld AgentResult :=
  client <- of_result getAnthropicClient ;;
  let systemMessages := map content (filter (fun msg => is_system (role msg)) history) in
  let systemPrompt := Js.join (LFs ++ LFs) (buildSystemPrompt :: systemMessages) in
  let entries :=
    map (fun msg => mkEntry (role_name (role msg)) (CString (content msg)))
        (filter (fun msg => is_user_or_assistant (role msg)) history) in
  let context :=
    buildTaskContext (cfg_gatewayUrl config) (cfg_gatewayBaseUrl config)
                     (cfg_gatewayToken config) (cfg_backendToken config) in
  let conversation :=
    match entries with
    | [] =>
        let joined :=
          Js.join LFs (map content (filter (fun msg => negb (is_system (role msg))) history)) in
        [mkEntry "user" (CString (if Js.nonempty joined then joined else "Hello."))]
    | _ :: _ => entries
    end in
  st <- while_loop client systemPrompt config context 5 (mkLoop 0 conversation [] []) ;;
  let final :=
    if (5 <=? toolIteration st)%nat
    then (finalMessages st ++ [mkMessage RAssistant limit_message])%list
    else finalMessages st in
  ret (mkAgentResult final (loop_outputs st)).

(** ** The life of a client instance

    What a caller does with an instance is a sequence of method calls, each
    of which it may let fail. *)

Inductive Method : Type :=
| CallInitialize
| CallPing
| CallListTools
| CallCallTool (name : string) (args : Json).

Definition call (m : Method) : M ClientWorld Json :=
  match m with
  | CallInitialize => initialize
  | CallPing => ping
  | CallListTools => listTools
  | CallCallTool name args => callTool name args
  end.

Fixpoint run_calls (ms : list Method) (s : ClientWorld) : ClientWorld :=
  match ms with
  | [] => s
  | m :: rest => run_calls rest (snd (call m s))
  end.

(** The session identifier a response carries, if any. *)
Definition captured (o : FetchOutcome) : option string :=
  match o with
  | Responds r => headers_get (headers r) "mcp-session-id"
  | _ => None
  end.

(** The identifier the instance holds after the outcome [o]. *)
Definition learn (o : FetchOutcome) (sid : option string) : option string :=
  match captured o with
  | Some s => Some s
  | None => sid
  end.

(** The session header of a request. *)
Definition session_header (r : Request) : option string :=
  headers_get (req_headers r) "mcp-session-id".

(** The identifier held after the requests [reqs], the first of which is the
    [n]-th of the run, by an instance that held [sid] before them. *)
Fixpoint last_session (net : nat -> Request -> FetchOutcome) (sid : option string)
    (n : nat) (reqs : list Request) : option string :=
  match reqs with
  | [] => sid
  | r :: rest => last_session net (learn (net n r) sid) (S n) rest
  end.

(** The session header a request carries when the instance holds [sid]. *)
Definition echoed (sid : option string) : option string :=
  match sid with
  | Some s => if Js.nonempty s then Some s else None
  | None => None
  end.

(** One change of the state of an instance: a new request number, or one
    [execute]. *)
Inductive step : ClientWorld -> ClientWorld -> Prop :=
| step_id s v : step s (mkCW (set_requestId v (this s)) (world s))
| step_execute s payload ignoreErrors : step s (snd (execute payload ignoreErrors s)).

Inductive steps : ClientWorld -> ClientWorld -> Prop :=
| steps_refl s : steps s s
| steps_cons s1 s2 s3 : step s1 s2 -> steps s2 s3 -> steps s1 s3.

(** ** The vocabulary of the properties *)

(** The content type [execute] reads from a response. *)
Definition content_type (r : Response) : string :=
  match headers_get (headers r) "content-type" with
  | Some s => s
  | None => EmptyString
  end.


(** The connection fails before the response, or while its body is read. *)
Definition failure (o : FetchOutcome) : option Exn :=
  match o with
  | NetworkFails e => Some e
  | Responds r => match body r with BodyFails e => Some e | _ => None end
  | TimesOut => None
  end.


(** The member [error] of a parsed body when it is an object or an array. *)
Definition error_object (parsed : option Json) : option Json :=
  match parsed with
  | Some json =>
      match JsValue.prop "error" json with
      | Some err =>
          if JsValue.truthy (Some err) && JsValue.typeof_object err then Some err else None
      | None => None
      end
  | None => None
  end.


(** The first request of a fresh instance: the [initialize] request. *)
Definition handshake_request (gatewayUrl : string) (gatewayToken backendToken : option string)
    : Request :=
  request_of (set_requestId 1 (constructor (mkOptions gatewayUrl gatewayToken backendToken None)))
             (mkRpc (Some 1) "initialize" (Some initialize_params)).

(** A tool call that cannot throw: its tool is not [registry_task] and its
    input is not [null]. *)
Definition contained (call : ToolUse) : bool :=
  negb (String.eqb (tu_name call) "registry_task") &&
  match tu_input call with JNull => false | _ => true end.

(** * Properties *)

(** ** Strings *)

Lemma strip_trailing_slash_app (s : string) :
  Js.strip_trailing_slash (s ++ "/") = s.
Proof.
  induction s as [|c s IH]; [reflexivity|].
  simpl. rewrite IH.
  destruct s; reflexivity.
Qed.

Lemma strip_trailing_slash_id (s : string) :
  Js.endsWith_char "/" s = false -> Js.strip_trailing_slash s = s.
Proof.
  induction s as [|c s IH]; [reflexivity|].
  simpl. destruct s as [|d s'].
  - intros ->. reflexivity.
  - intros H. rewrite (IH H). reflexivity.
Qed.

Lemma prefix_app (p s : string) : String.prefix p (p ++ s) = true.
Proof.
  induction p as [|c p IH]; simpl.
  - destruct s; reflexivity.
  - destruct (ascii_dec c c) as [_|n]; [exact IH | now destruct n].
Qed.

Lemma includes_prefix (sub s : string) :
  String.prefix sub s = true -> Js.includes sub s = true.
Proof. intros H. destruct s; unfold Js.includes; rewrite H; reflexivity. Qed.

Lemma includes_here (sub s : string) : Js.includes sub (sub ++ s) = true.
Proof. apply includes_prefix, prefix_app. Qed.

Lemma includes_app (sub a s : string) :
  Js.includes sub s = true -> Js.includes sub (a ++ s) = true.
Proof.
  intros H. induction a as [|c a IH]; [exact H|].
  simpl. rewrite IH. apply orb_true_r.
Qed.

Lemma includes_mid (sub a b : string) : Js.includes sub (a ++ sub ++ b) = true.
Proof. apply includes_app, includes_here. Qed.

Lemma includes_self (s : string) : Js.includes s s = true.
Proof.
  apply includes_prefix. induction s as [|c s IH]; [reflexivity|].
  simpl. destruct (ascii_dec c c) as [_|n]; [exact IH | now destruct n].
Qed.

Lemma includes_end (sub a : string) : Js.includes sub (a ++ sub) = true.
Proof. apply includes_app, includes_self. Qed.

Lemma prefix_app_l (p a b : string) :
  String.prefix p a = true -> String.prefix p (a ++ b) = true.
Proof.
  revert a. induction p as [|c p IH]; intros a; [destruct (a ++ b); reflexivity|].
  destruct a as [|d a]; simpl; [discriminate|].
  destruct (ascii_dec c d); [apply IH | discriminate].
Qed.

Lemma includes_app_l (sub a b : string) :
  Js.includes sub a = true -> Js.includes sub (a ++ b) = true.
Proof.
  induction a as [|c a IH].
  - simpl. rewrite orb_false_r. intros H.
    apply includes_prefix. apply (prefix_app_l sub EmptyString b H).
  - intros H. simpl in H. apply orb_true_iff in H as [H|H].
    + apply includes_prefix. apply (prefix_app_l sub (String c a) b H).
    + change (String c a ++ b) with (String c (a ++ b)).
      simpl. rewrite (IH H). apply orb_true_r.
Qed.

(** ** One [execute] *)

Lemma set_sessionId_same (c : McpClient) : set_sessionId (sessionId c) c = c.
Proof. destruct c; reflexivity. Qed.

(** What [execute] leaves behind, whatever it returns or throws: the request
    is logged, and the instance holds the session identifier of the response
    when it carries one. *)
Lemma execute_state (payload : JsonRpcRequest) (ignoreErrors : bool) (s : ClientWorld) :
  snd (execute payload ignoreErrors s) =
  mkCW (set_sessionId
          (learn (net (world s) (length (sent (world s))) (request_of (this s) payload))
                 (sessionId (this s)))
          (this s))
       (mkWorld (net (world s)) (sent (world s) ++ [request_of (this s) payload])).
Proof.
  destruct s as [c w].
  unfold execute, try_catch, bind, get_this, fetch, update_this, learn, captured; simpl.
  destruct (net w (length (sent w)) (request_of c payload)) as [e| |r]; simpl.
  - rewrite set_sessionId_same.
    destruct ignoreErrors; simpl; [reflexivity|].
    destruct (String.eqb (exn_name e) "AbortError"); reflexivity.
  - rewrite set_sessionId_same. destruct ignoreErrors; reflexivity.
  - unfold text.
    destruct (body r) as [raw|e|]; simpl.
    + destruct (negb (ok r) && negb ignoreErrors) eqn:Hbad; simpl.
      * destruct ignoreErrors; simpl.
        -- rewrite andb_false_r in Hbad. discriminate.
        -- reflexivity.
      * destruct (negb (Js.nonempty raw)); simpl; [reflexivity|].
        destruct (Js.includes _ _); simpl; [reflexivity|].
        unfold JSON_parse_m. destruct (JSON_parse raw); simpl; [reflexivity|].
        destruct ignoreErrors; reflexivity.
    + destruct ignoreErrors; simpl; [reflexivity|].
      destruct (String.eqb (exn_name e) "AbortError"); reflexivity.
    + destruct ignoreErrors; reflexivity.
Qed.

(** ** The methods as sequences of steps *)

Lemma snd_bind_ret {S A B} (c : M S A) (f : A -> B) (s : S) :
  snd ((x <- c ;; ret (f x)) s) = snd (c s).
Proof. unfold bind, ret. destruct (c s) as [[a|e] s']; reflexivity. Qed.

Lemma steps_one (s1 s2 : ClientWorld) : step s1 s2 -> steps s1 s2.
Proof. intros H. eapply steps_cons; [exact H | apply steps_refl]. Qed.

Lemma steps_trans (s1 s2 s3 : ClientWorld) : steps s1 s2 -> steps s2 s3 -> steps s1 s3.
Proof.
  induction 1 as [|a b c Hab Hbc IH]; [auto|].
  intros H. eapply steps_cons; [exact Hab | exact (IH H)].
Qed.

Lemma nextRequestId_run (s : ClientWorld) :
  nextRequestId s =
  (Ok (requestId (this s) + 1),
   mkCW (set_requestId (requestId (this s) + 1) (this s)) (world s)).
Proof. reflexivity. Qed.

(** A numbered request: a new request number, then one [execute]. *)
Lemma numbered_steps (method : string) (params : Z -> option Json) (s : ClientWorld) :
  steps s (snd ((id <- nextRequestId ;; execute (mkRpc (Some id) method (params id)) false) s)).
Proof.
  unfold bind. rewrite nextRequestId_run.
  eapply steps_cons; [apply step_id|].
  apply steps_one, step_execute.
Qed.

(** The notification never throws, and is one [execute]. *)
Lemma sendInitializedNotification_run (s : ClientWorld) :
  sendInitializedNotification s =
  (Ok tt, snd (execute (mkRpc None "notifications/initialized" None) true s)).
Proof.
  unfold sendInitializedNotification, try_catch, bind.
  destruct (execute _ true s) as [[v|e] s']; reflexivity.
Qed.

Lemma initialize_run (s : ClientWorld) :
  let s0 := mkCW (set_requestId (requestId (this s) + 1) (this s)) (world s) in
  let first := execute (mkRpc (Some (requestId (this s) + 1)) "initialize"
                              (Some initialize_params)) false s0 in
  initialize s =
  match fst first with
  | Ok r => (Ok r, snd (execute (mkRpc None "notifications/initialized" None) true (snd first)))
  | Throw e => (Throw e, snd first)
  end.
Proof.
  unfold initialize, bind at 1. rewrite nextRequestId_run. cbv zeta.
  unfold bind at 1.
  destruct (execute _ false _) as [[r|e] s1]; simpl; [|reflexivity].
  unfold bind. rewrite sendInitializedNotification_run. reflexivity.
Qed.

Lemma call_steps (m : Method) (s : ClientWorld) : steps s (snd (call m s)).
Proof.
  destruct m as [| | |name args]; simpl.
  - rewrite initialize_run. cbv zeta.
    eapply steps_cons; [apply step_id|].
    eapply steps_cons; [apply step_execute|].
    destruct (fst _); simpl; [|apply steps_refl].
    apply steps_one, step_execute.
  - apply (numbered_steps "ping" (fun _ => None)).
  - apply (numbered_steps "tools/list" (fun _ => None)).
  - apply (numbered_steps "tools/call"
             (fun _ => Some (JObj [("name", JStr name); ("arguments", args)]))).
Qed.

Lemma run_calls_steps (ms : list Method) (s : ClientWorld) : steps s (run_calls ms s).
Proof.
  revert s. induction ms as [|m ms IH]; intros s; simpl; [apply steps_refl|].
  eapply steps_trans; [apply call_steps | apply IH].
Qed.

(** ** What holds along the steps *)

Lemma headers_get_session (c : McpClient) :
  headers_get (buildHeaders c) "mcp-session-id" = echoed (sessionId c).
Proof.
  unfold buildHeaders, headers_get, echoed.
  destruct (truthy_str (gatewayToken c)), (truthy_str (backendToken c)),
    (sessionId c) as [sid|]; simpl; try reflexivity;
    destruct (Js.nonempty sid); reflexivity.
Qed.

(** The requests an instance sends between two of its states: each goes to
    the URL of the instance and carries the session identifier of the latest
    response that had one, when that identifier is not empty, and no session
    header otherwise; the URL, the timeout and the credentials stay. *)
Lemma steps_trace (s s' : ClientWorld) :
  steps s s' ->
  exists new,
    sent (world s') = (sent (world s) ++ new)%list /\
    net (world s') = net (world s) /\
    url (this s') = url (this s) /\
    timeout (this s') = timeout (this s) /\
    Forall (fun r => req_url r = url (this s)) new /\
    sessionId (this s') =
      last_session (net (world s)) (sessionId (this s)) (length (sent (world s))) new /\
    forall before r after,
      new = (before ++ r :: after)%list ->
      session_header r =
      echoed (last_session (net (world s)) (sessionId (this s))
                           (length (sent (world s))) before).
Proof.
  induction 1 as [s|s1 s2 s3 H12 H23 IH].
  - exists []. rewrite app_nil_r. repeat split; auto.
    intros before r after E. destruct before; discriminate.
  - destruct IH as (new & Hsent & Hnet & Hurl & Htime & Hall & Hsid & Hecho).
    destruct H12 as [s v|s payload ie].
    + exists new. simpl in *. repeat split; auto.
    + rewrite execute_state in *. simpl in *.
      exists (request_of (this s) payload :: new).
      rewrite <- app_assoc in Hsent. simpl in Hsent.
      rewrite length_app in Hsid, Hecho. simpl in Hsid, Hecho.
      rewrite Nat.add_1_r in Hsid, Hecho.
      split; [exact Hsent|]. split; [exact Hnet|]. split; [exact Hurl|].
      split; [exact Htime|].
      split; [constructor; [reflexivity | exact Hall]|].
      split; [exact Hsid|].
      intros before r after E. destruct before as [|b before]; simpl in *.
      * injection E as <- _. apply headers_get_session.
      * injection E as <- E. apply (Hecho _ _ _ E).
Qed.

(** ** What [execute] returns *)

(** A response whose body arrives. *)
Lemma execute_text (payload : JsonRpcRequest) (ignoreErrors : bool) (s : ClientWorld)
    (r : Response) (raw : string) :
  net (world s) (length (sent (world s))) (request_of (this s) payload) = Responds r ->
  body r = BodyText raw ->
  fst (execute payload ignoreErrors s) =
  if negb (ok r) && negb ignoreErrors then Throw (buildHttpError (status r) (statusText r) raw)
  else if negb (Js.nonempty raw) then Ok empty_success
  else if Js.includes "text/event-stream" (content_type r) then Ok (parseSsePayload raw)
  else match JSON_parse raw with
       | Some v => Ok v
       | None => if ignoreErrors then Ok empty_success else Throw (SyntaxError raw)
       end.
Proof.
  intros Hnet Hbody. destruct s as [c w]. simpl in Hnet.
  unfold execute, try_catch, bind, get_this, fetch, update_this, text, content_type; simpl.
  rewrite Hnet. simpl. rewrite Hbody. simpl.
  destruct (negb (ok r) && negb ignoreErrors) eqn:Hbad; simpl.
  - destruct ignoreErrors; [rewrite andb_false_r in Hbad; discriminate|].
    reflexivity.
  - destruct (negb (Js.nonempty raw)); simpl; [reflexivity|].
    destruct (Js.includes _ _); simpl; [reflexivity|].
    unfold JSON_parse_m. destruct (JSON_parse raw); simpl; [reflexivity|].
    destruct ignoreErrors; reflexivity.
Qed.


Lemma execute_failure (payload : JsonRpcRequest) (ignoreErrors : bool) (s : ClientWorld)
    (e : Exn) :
  failure (net (world s) (length (sent (world s))) (request_of (this s) payload)) = Some e ->
  fst (execute payload ignoreErrors s) =
  if ignoreErrors then Ok empty_success
  else if String.eqb (exn_name e) "AbortError" then Throw (Error (timeout_message (this s)))
  else Throw e.
Proof.
  destruct s as [c w]. simpl.
  unfold execute, try_catch, bind, get_this, fetch, update_this, text; simpl.
  destruct (net w (length (sent w)) (request_of c payload)) as [e'| |r]; simpl;
    [ | discriminate | ].
  - intros [= ->]. destruct ignoreErrors; [reflexivity|].
    destruct (String.eqb (exn_name e) "AbortError"); reflexivity.
  - destruct (body r); try discriminate. intros [= ->]. simpl.
    destruct ignoreErrors; [reflexivity|].
    destruct (String.eqb (exn_name e) "AbortError"); reflexivity.
Qed.

(** ** The URL of an instance *)

(** C10: the URL of an instance is the URL of the options without one
    trailing slash (a URL that ends in two slashes keeps one), and through
    every sequence of method calls the instance keeps it and sends every
    request to it. *)
Theorem url_fixed_for_life (options : McpClientOptions) (w : World) (ms : list Method) :
  let c := constructor options in
  let s' := run_calls ms (mkCW c w) in
  (forall u, opt_url options = u ++ "/" -> url c = u) /\
  (forall u, opt_url options = u ++ "//" -> url c = u ++ "/") /\
  (Js.endsWith_char "/" (opt_url options) = false -> url c = opt_url options) /\
  url (this s') = url c /\
  exists new,
    sent (world s') = (sent w ++ new)%list /\
    Forall (fun r => req_url r = url c) new.
Proof.
  intros c s'. unfold c at 1 2 3; simpl.
  split; [intros u ->; apply strip_trailing_slash_app|].
  split.
  { intros u ->.
    replace (u ++ "//") with ((u ++ "/") ++ "/").
    - apply strip_trailing_slash_app.
    - clear. induction u as [|a u IH]; simpl; [reflexivity | now rewrite IH]. }
  split; [apply strip_trailing_slash_id|].
  destruct (steps_trace _ _ (run_calls_steps ms (mkCW c w)))
    as (new & Hsent & _ & Hurl & _ & Hall & _).
  split; [exact Hurl|].
  exists new. split; [exact Hsent | exact Hall].
Qed.

(** ** The session identifier *)

(** C1, as amended: every request an instance sends carries, as its session
    header, the session identifier of the latest response received before
    it that had a session header, whatever the status of that response and
    whether or not the call it answered failed, provided that identifier is
    not empty; when no response had one yet, or the latest one is empty, the
    request carries no session header. *)
Theorem session_echo (options : McpClientOptions) (w : World) (ms : list Method)
    (before : list Request) (r : Request) (after : list Request) :
  sent (world (run_calls ms (mkCW (constructor options) w)))
    = (sent w ++ before ++ r :: after)%list ->
  session_header r = echoed (last_session (net w) None (length (sent w)) before).
Proof.
  intros Hsent.
  destruct (steps_trace _ _ (run_calls_steps ms (mkCW (constructor options) w)))
    as (new & Hnew & _ & _ & _ & _ & _ & Hecho).
  simpl in Hnew, Hecho. rewrite Hnew in Hsent.
  apply app_inv_head in Hsent.
  exact (Hecho _ _ _ Hsent).
Qed.

(** ** Timeouts *)


(** ** Event streams *)






(** ** HTTP errors *)

Lemma http_error_message_cases (st : Z) (stText raw : string) :
  http_error_message st stText raw =
  match error_object (JSON_parse raw) with
  | Some err =>
      http_prefix st stText ++ ": " ++
      match JsValue.prop "message" err with
      | Some JNull | None => JSON_stringify err
      | Some m => js_String m
      end
  | None =>
      http_prefix st stText ++ "." ++
      if Js.nonempty raw then " " ++ Js.trim raw else EmptyString
  end.
Proof.
  unfold http_error_message, error_object.
  destruct (JSON_parse raw) as [[|b|q|t|items|fields]|]; try reflexivity.
  destruct (JsValue.prop "error" (JObj fields)) as [err|]; [|reflexivity].
  destruct (JsValue.truthy (Some err) && JsValue.typeof_object err); [|reflexivity].
  destruct (JsValue.prop "message" err) as [[|b|q|t|items|fs]|]; reflexivity.
Qed.

Lemma http_prefix_status (st : Z) (stText rest : string) :
  Js.includes (Js.of_Z st) (http_prefix st stText ++ rest) = true.
Proof. apply includes_app_l. unfold http_prefix. apply (includes_mid _ "HTTP "). Qed.

(** C6, as amended: a response with a status outside 200..299 to a request
    that is not best-effort, whose body arrives, makes [execute] throw an
    error.  When the body parses as JSON with a member [error] that is an
    object with a string [message], the error message is [HTTP], the status,
    the status text and that string, so it contains the status code and the
    string; when the member [error] is an object or array with no [message],
    its JSON text stands in for the string; when the body does not parse or
    has no such member, the error message ends with the body, trimmed. *)
Theorem http_error_raised (payload : JsonRpcRequest) (s : ClientWorld)
    (r : Response) (raw : string) :
  net (world s) (length (sent (world s))) (request_of (this s) payload) = Responds r ->
  body r = BodyText raw ->
  ok r = false ->
  exists msg,
    fst (execute payload false s) = Throw (Error msg) /\
    Js.includes (Js.of_Z (status r)) msg = true /\
    (forall err m,
       error_object (JSON_parse raw) = Some err ->
       JsValue.prop "message" err = Some (JStr m) ->
       msg = http_prefix (status r) (statusText r) ++ ": " ++ m /\
       Js.includes m msg = true) /\
    (forall err,
       error_object (JSON_parse raw) = Some err ->
       JsValue.prop "message" err = None ->
       msg = http_prefix (status r) (statusText r) ++ ": " ++ JSON_stringify err) /\
    (error_object (JSON_parse raw) = None ->
     msg = http_prefix (status r) (statusText r) ++ "."
             ++ (if Js.nonempty raw then " " ++ Js.trim raw else EmptyString) /\
     Js.includes (Js.trim raw) msg = true).
Proof.
  intros Hnet Hbody Hok.
  exists (http_error_message (status r) (statusText r) raw).
  split.
  { rewrite (execute_text _ _ _ _ _ Hnet Hbody), Hok. reflexivity. }
  rewrite http_error_message_cases.
  split; [|split; [|split]].
  - destruct (error_object (JSON_parse raw)); apply http_prefix_status.
  - intros err m -> ->. cbv iota.
    split; [reflexivity|].
    apply includes_app, (includes_end m ": ").
  - intros err -> ->. reflexivity.
  - intros ->. split; [reflexivity|].
    apply includes_app, (includes_app _ ".").
    destruct raw as [|a raw']; [reflexivity|].
    apply (includes_end _ " ").
Qed.

(** ** The notification of [initialize] *)



(** ** The gateway commands and the network *)

Lemma steps_sent (s s' : ClientWorld) :
  steps s s' -> exists new, sent (world s') = (sent (world s) ++ new)%list.
Proof.
  intros H. destruct (steps_trace _ _ H) as (new & Hsent & _). eauto.
Qed.

(** Every gateway command starts with the handshake, whatever the command
    and its options are. *)
Lemma executeMcpCommand_sends (command gatewayUrl : string)
    (gatewayToken backendToken : option string) (callOptions : option (string * Json))
    (w : World) :
  exists more,
    sent (snd (executeMcpCommand command gatewayUrl gatewayToken backendToken callOptions w))
    = (sent w ++ handshake_request gatewayUrl gatewayToken backendToken :: more)%list.
Proof.
  unfold executeMcpCommand, with_new_client.
  set (c := constructor _).
  match goal with |- context [bind initialize ?k] => set (rest := k) end.
  assert (Hsteps : steps (snd (execute (mkRpc (Some 1) "initialize" (Some initialize_params))
                                       false (mkCW (set_requestId 1 c) w)))
                         (snd (bind initialize rest (mkCW c w)))).
  { unfold bind at 1. rewrite initialize_run. cbv zeta. simpl this. simpl world.
    change (requestId c + 1) with 1.
    destruct (fst (execute _ false _)) as [h|e]; [|apply steps_refl].
    eapply steps_cons; [apply step_execute|].
    unfold rest.
    destruct (String.eqb command "ping");
      [rewrite snd_bind_ret; apply (call_steps CallPing)|].
    destruct (String.eqb command "list");
      [rewrite snd_bind_ret; apply (call_steps CallListTools)|].
    destruct (String.eqb command "call"); [|apply steps_refl].
    destruct callOptions as [[tool args]|]; [|apply steps_refl].
    rewrite snd_bind_ret. apply (call_steps (CallCallTool tool args)). }
  destruct (bind initialize rest (mkCW c w)) as [res s'].
  apply steps_sent in Hsteps. destruct Hsteps as (new & Hnew).
  rewrite execute_state in Hnew. simpl in Hnew |- *.
  exists new. rewrite Hnew, <- app_assoc. reflexivity.
Qed.

Lemma bind_ret_l {S A B} (x : A) (k : A -> M S B) : bind (ret x) k = k x.
Proof. reflexivity. Qed.

(** The mapped [mcp_command] tool with a command and an object for input:
    the gateway command inside a [try]. *)
Lemma executeMappedTool_mcp (id : string) (fields : list (string * Json))
    (gatewayUrl : string) (context : TaskContext) :
  let command := string_or_empty (JsValue.prop "command" (JObj fields)) in
  let t := JsValue.prop "tool" (JObj fields) in
  let toolName := if JsValue.truthy t then Some (string_or_empty t) else None in
  let a := JsValue.prop "args" (JObj fields) in
  let args :=
    match a with
    | Some v => if JsValue.truthy a && JsValue.typeof_object v then v else JObj []
    | None => JObj []
    end in
  Js.nonempty command = true ->
  executeMappedTool (mapToolCall (mkToolUse id "mcp_command" (JObj fields))) gatewayUrl context =
  try_catch
    (r <- executeMcpCommand command gatewayUrl (ctx_gatewayToken context)
            (ctx_backendToken context)
            (if truthy_str toolName
             then Some (match toolName with Some n => n | None => EmptyString end, args)
             else None) ;;
     ret (mkToolResult
            (JSON_stringify_pretty (JObj [("handshake", handshake r); ("response", response r)]))
            None))
    (fun error => ret (mkToolResult (exn_message error) (Some true))).
Proof.
  intros command t toolName a args Hcommand.
  unfold executeMappedTool, mapToolCall. simpl inv_type. simpl inv_input. cbv iota.
  unfold read_input. rewrite !bind_ret_l.
  fold command. rewrite Hcommand. reflexivity.
Qed.

Lemma try_catch_ret_state {S A B} (c : M S A) (f : A -> B) (h : Exn -> B) (s : S) :
  snd (try_catch (x <- c ;; ret (f x)) (fun e => ret (h e)) s) = snd (c s).
Proof. unfold try_catch, bind, ret. destruct (c s) as [[a|e] s']; reflexivity. Qed.

Lemma try_catch_ret_throw {S A B} (c : M S A) (f : A -> B) (h : Exn -> B) (s : S) (e : Exn) :
  fst (c s) = Throw e ->
  fst (try_catch (x <- c ;; ret (f x)) (fun e => ret (h e)) s) = Ok (h e).
Proof.
  unfold try_catch, bind, ret. destruct (c s) as [[a|e'] s']; simpl; [discriminate|].
  intros [= ->]. reflexivity.
Qed.

(** C4, at the input that breaks it: the [mcp_command] tool asked for the
    [call] command with no tool name.  The handshake request goes out
    before the missing name is noticed; when the handshake succeeds the
    tool result is the validation message. *)
Theorem call_without_tool_uses_network (id gatewayUrl : string) (context : TaskContext)
    (w : World) :
  let invocation := mapToolCall (mkToolUse id "mcp_command" (JObj [("command", JStr "call")])) in
  let run := executeMappedTool invocation gatewayUrl context w in
  let fresh :=
    constructor (mkOptions gatewayUrl (ctx_gatewayToken context) (ctx_backendToken context) None) in
  (exists more,
     sent (snd run) =
     (sent w ++ handshake_request gatewayUrl (ctx_gatewayToken context)
                                  (ctx_backendToken context) :: more)%list) /\
  (is_ok (fst (initialize (mkCW fresh w))) = true ->
   fst run = Ok (mkToolResult "Tool name and args are required for /call." (Some true))).
Proof.
  intros invocation run fresh. unfold run, invocation.
  rewrite (executeMappedTool_mcp id [("command", JStr "call")]) by reflexivity.
  cbv zeta. split.
  - rewrite try_catch_ret_state. apply executeMcpCommand_sends.
  - intros Hinit.
    apply (try_catch_ret_throw _ _ (fun e => mkToolResult (exn_message e) (Some true))
                               w (Error call_required)).
    simpl truthy_str. cbv iota.
    unfold executeMcpCommand, with_new_client. fold fresh.
    unfold bind. destruct (initialize (mkCW fresh w)) as [[h|e] s1]; [reflexivity | discriminate].
Qed.

(** The slash command [/call] with no tool name stops before any request. *)
Lemma executeCall_without_tool (parsed : CallCommand) (context : TaskContext) (w : World) :
  truthy_str (call_tool parsed) = false ->
  executeCall parsed context w = (Ok (mkSlash ["Tool name is required for /call."] (Some true)), w).
Proof. intros H. unfold executeCall. rewrite H. reflexivity. Qed.

(** ** Failures inside a tool *)

Lemma initialize_fails (s : ClientWorld) (e : Exn) :
  (forall req, net (world s) (length (sent (world s))) req = NetworkFails e) ->
  String.eqb (exn_name e) "AbortError" = false ->
  fst (initialize s) = Throw e.
Proof.
  intros Hnet Hname. rewrite initialize_run. cbv zeta.
  rewrite (execute_failure _ false _ e) by (simpl; rewrite Hnet; reflexivity).
  rewrite Hname. reflexivity.
Qed.

Lemma executeMcpCommand_fails (command gatewayUrl : string)
    (gatewayToken backendToken : option string) (callOptions : option (string * Json))
    (w : World) (e : Exn) :
  (forall req, net w (length (sent w)) req = NetworkFails e) ->
  String.eqb (exn_name e) "AbortError" = false ->
  fst (executeMcpCommand command gatewayUrl gatewayToken backendToken callOptions w) = Throw e.
Proof.
  intros Hnet Hname. unfold executeMcpCommand, with_new_client.
  set (c := constructor _).
  pose proof (initialize_fails (mkCW c w) e Hnet Hname) as H.
  unfold bind. destruct (initialize (mkCW c w)) as [[h|e'] s1]; simpl in H; [discriminate|].
  injection H as ->. reflexivity.
Qed.

Lemma registry_task_throws (id gatewayUrl : string) (context : TaskContext)
    (w : World) (e : Exn) :
  parseCommand "/ping" = PPing ->
  (forall req, net w (length (sent w)) req = NetworkFails e) ->
  String.eqb (exn_name e) "AbortError" = false ->
  fst (executeMappedTool
         (mapToolCall (mkToolUse id "registry_task" (JObj [("command", JStr "ping")])))
         gatewayUrl context w) = Throw e.
Proof.
  intros Hparse Hnet Hname.
  change (mapToolCall _)
    with (mkInvocation TTask "registry_task" (JObj [("command", JStr "ping")])).
  unfold executeMappedTool. cbn [inv_type inv_input].
  unfold read_input. rewrite bind_ret_l.
  change (Js.trim (string_or_empty (JsValue.prop "command" (JObj [("command", JStr "ping")]))))
    with "ping".
  change (if Js.startsWith "/" "ping" then "ping" else "/" ++ "ping") with "/ping".
  unfold executeSlashCommand. rewrite Hparse.
  unfold executeMcp, bind.
  pose proof (executeMcpCommand_fails "ping" (ctx_gatewayUrl context)
                (ctx_gatewayToken context) (ctx_backendToken context) None w e Hnet Hname) as H.
  destruct (executeMcpCommand _ _ _ _ _ w) as [[r|e'] w']; simpl in H; [discriminate|].
  injection H as ->. reflexivity.
Qed.

Lemma mcp_command_contains (id gatewayUrl : string) (context : TaskContext)
    (w : World) (e : Exn) :
  (forall req, net w (length (sent w)) req = NetworkFails e) ->
  String.eqb (exn_name e) "AbortError" = false ->
  fst (executeMappedTool
         (mapToolCall (mkToolUse id "mcp_command" (JObj [("command", JStr "ping")])))
         gatewayUrl context w) = Ok (mkToolResult (exn_message e) (Some true)).
Proof.
  intros Hnet Hname.
  rewrite (executeMappedTool_mcp id [("command", JStr "ping")]) by reflexivity.
  cbv zeta.
  apply (try_catch_ret_throw _ _ (fun e => mkToolResult (exn_message e) (Some true)) w e).
  apply executeMcpCommand_fails; assumption.
Qed.

(** C3, at the input that breaks it: with the gateway unreachable, the
    [registry_task] tool asked to run [ping] throws the network failure out
    of the tool-execution step, where the [mcp_command] tool asked the same
    returns it as a tool result marked as an error. *)
Theorem task_failure_escapes (id gatewayUrl : string) (context : TaskContext)
    (w : World) (e : Exn) :
  parseCommand "/ping" = PPing ->
  (forall req, net w (length (sent w)) req = NetworkFails e) ->
  String.eqb (exn_name e) "AbortError" = false ->
  fst (executeMappedTool
         (mapToolCall (mkToolUse id "registry_task" (JObj [("command", JStr "ping")])))
         gatewayUrl context w) = Throw e /\
  fst (executeMappedTool
         (mapToolCall (mkToolUse id "mcp_command" (JObj [("command", JStr "ping")])))
         gatewayUrl context w) = Ok (mkToolResult (exn_message e) (Some true)).
Proof.
  intros Hparse Hnet Hname. split.
  - apply registry_task_throws; assumption.
  - apply mcp_command_contains; assumption.
Qed.

(** ** The agent loop *)

(** C9, as amended: when the first provider response of a turn has no
    tool-use block, [runAgentTurn] makes that one provider call and no
    other, runs no tool, and returns one assistant message: the texts of
    the text blocks of the response, in order, with a line feed between
    one and the next. *)
Theorem agent_turn_text_only (provider : Provider) (history : list AgentMessage)
    (config : AgentConfig) (s : AgentWorld) (response : ProviderResponse) :
  getAnthropicClient = Ok provider ->
  (forall req, provider (length (asked s)) req = Ok response) ->
  tool_uses (blocks_of response) = [] ->
  exists req,
    runAgentTurn history config s =
    (Ok (mkAgentResult
           [mkMessage RAssistant
              (Js.join LFs (map text_of (filter is_text (blocks_of response))))]
           []),
     mkAW (asked s ++ [req]) (outside s)).
Proof.
  intros Hclient Hfirst Hnone.
  unfold runAgentTurn. rewrite Hclient. unfold of_result. unfold bind at 1.
  match goal with
  | |- context [while_loop provider ?sp config ?ctx 5 (mkLoop 0 ?conv [] [])] =>
      set (systemPrompt := sp); set (context := ctx); set (conv0 := conv)
  end.
  eexists.
  unfold bind at 1. cbn [while_loop]. cbn [toolIteration Nat.ltb Nat.leb conversation].
  unfold bind at 1. unfold create at 1. rewrite Hfirst. cbv zeta. rewrite Hnone.
  reflexivity.
Qed.

Lemma executeMappedTool_contained (call : ToolUse) (gatewayUrl : string)
    (context : TaskContext) (w : World) :
  contained call = true ->
  exists r, fst (executeMappedTool (mapToolCall call) gatewayUrl context w) = Ok r.
Proof.
  unfold contained, mapToolCall. intros H. apply andb_true_iff in H as [Hname Hinput].
  destruct (String.eqb (tu_name call) "mcp_command").
  - unfold executeMappedTool. cbn [inv_type inv_input]. unfold read_input.
    destruct (tu_input call) as [|b|q|t|items|fields]; try discriminate;
      rewrite bind_ret_l;
      (destruct (negb (Js.nonempty _)); [eexists; reflexivity|]);
      rewrite !bind_ret_l;
      unfold try_catch, bind;
      match goal with
      | |- context [executeMcpCommand ?a ?b ?c ?d ?e w] =>
          destruct (executeMcpCommand a b c d e w) as [[r|e'] w']
      end; eexists; reflexivity.
  - destruct (String.eqb (tu_name call) "registry_task"); [discriminate|].
    eexists. reflexivity.
Qed.

Lemma run_tool_calls_contained (config : AgentConfig) (context : TaskContext)
    (calls : list ToolUse) :
  Forall (fun c => contained c = true) calls ->
  forall st s,
  exists st' s',
    run_tool_calls config context calls st s = (Ok st', s') /\
    asked s' = asked s /\
    toolIteration st' = toolIteration st /\
    finalMessages st' = finalMessages st.
Proof.
  induction 1 as [|call calls Hcall _ IH]; intros st s.
  - exists st, s. repeat split.
  - cbn [run_tool_calls]. unfold bind at 1, lift_world at 1.
    destruct (executeMappedTool_contained call (cfg_gatewayUrl config) context (outside s) Hcall)
      as (r & Hr).
    destruct (executeMappedTool _ _ _ (outside s)) as [res w']. simpl in Hr. subst res.
    match goal with
    | |- context [run_tool_calls config context calls ?st1 ?s1] =>
        destruct (IH st1 s1) as (st' & s' & Hrun & Hasked & Hiter & Hfinal)
    end.
    exists st', s'. rewrite Hrun. repeat split; assumption.
Qed.

(** The loop runs to its bound when every response asks for tools that
    cannot throw. *)
Lemma while_loop_limit (provider : Provider) (systemPrompt : string) (config : AgentConfig)
    (context : TaskContext) :
  (forall n req, exists response,
      provider n req = Ok response /\
      tool_uses (blocks_of response) <> [] /\
      Forall (fun c => contained c = true) (tool_uses (blocks_of response))) ->
  forall turns st s,
    (toolIteration st + turns = 5)%nat ->
    exists st' s',
      while_loop provider systemPrompt config context turns st s = (Ok st', s') /\
      toolIteration st' = 5%nat /\
      finalMessages st' = finalMessages st /\
      length (asked s') = (length (asked s) + turns)%nat.
Proof.
  intros Hprovider. induction turns as [|turns IH]; intros st s Hsum.
  - exists st, s. repeat split; [lia | lia].
  - cbn [while_loop].
    replace (toolIteration st <? 5)%nat with true by (symmetry; apply Nat.ltb_lt; lia).
    unfold bind at 1, create at 1.
    match goal with
    | |- context [provider (length (asked s)) ?req] =>
        destruct (Hprovider (length (asked s)) req) as (response & -> & Hsome & Hsafe);
        set (req0 := req)
    end.
    cbv zeta.
    destruct (tool_uses (blocks_of response)) as [|call calls] eqn:Hcalls; [congruence|].
    unfold bind at 1.
    match goal with
    | |- context [run_tool_calls config context (call :: calls) ?st1 ?s1] =>
        destruct (run_tool_calls_contained config context (call :: calls) Hsafe st1 s1)
          as (st1' & s1' & -> & Hasked & Hiter & Hfinal)
    end.
    match goal with
    | |- context [while_loop provider systemPrompt config context turns ?st2 s1'] =>
        destruct (IH st2 s1') as (st' & s' & -> & Hfive & Hfinal' & Hlen)
    end.
    { cbn [toolIteration]. rewrite Hiter. cbn [toolIteration]. lia. }
    exists st', s'. split; [reflexivity|]. split; [exact Hfive|].
    split.
    + rewrite Hfinal'. cbn [finalMessages]. rewrite Hfinal. reflexivity.
    + rewrite Hlen, Hasked. cbn [asked]. rewrite length_app. simpl. lia.
Qed.

(** What C2 says, for the tools that cannot throw: a provider that asks for
    at least one such tool in every response is called exactly five times,
    and the turn ends with the one message that the limit was reached. *)
Lemma agent_turn_limit (provider : Provider) (history : list AgentMessage)
    (config : AgentConfig) (s : AgentWorld) :
  getAnthropicClient = Ok provider ->
  (forall n req, exists response,
      provider n req = Ok response /\
      tool_uses (blocks_of response) <> [] /\
      Forall (fun c => contained c = true) (tool_uses (blocks_of response))) ->
  exists outputs s',
    runAgentTurn history config s =
    (Ok (mkAgentResult
           [mkMessage RAssistant "Reached tool usage limit without final response."]
           outputs), s') /\
    length (asked s') = (length (asked s) + 5)%nat.
Proof.
  intros Hclient Hprovider.
  unfold runAgentTurn. rewrite Hclient. unfold of_result. unfold bind at 1.
  match goal with
  | |- context [while_loop provider ?sp config ?ctx 5 ?st0] =>
      destruct (while_loop_limit provider sp config ctx Hprovider 5 st0 s eq_refl)
        as (st' & s' & Hrun & Hfive & Hfinal & Hlen)
  end.
  unfold bind at 1. rewrite Hrun. unfold ret.
  rewrite Hfive, Hfinal. cbn [Nat.leb finalMessages app].
  exists (loop_outputs st'), s'. split; [reflexivity | exact Hlen].
Qed.

Lemma while_loop_escapes (provider : Provider) (systemPrompt : string)
    (config : AgentConfig) (context : TaskContext) (id : string) (e : Exn)
    (turns : nat) (st : LoopState) (s : AgentWorld) :
  parseCommand "/ping" = PPing ->
  (forall n req,
      provider n req =
      Ok (mkProviderResponse
            (Some [BToolUse (mkToolUse id "registry_task" (JObj [("command", JStr "ping")]))]))) ->
  (forall req, net (outside s) (length (sent (outside s))) req = NetworkFails e) ->
  String.eqb (exn_name e) "AbortError" = false ->
  (toolIteration st < 5)%nat ->
  exists s',
    while_loop provider systemPrompt config context (S turns) st s = (Throw e, s') /\
    length (asked s') = S (length (asked s)).
Proof.
  intros Hparse Hprovider Hnet Hname Hlt.
  cbn [while_loop].
  replace (toolIteration st <? 5)%nat with true by (symmetry; apply Nat.ltb_lt; lia).
  unfold bind at 1, create at 1. rewrite Hprovider. cbv zeta.
  cbn [blocks_of resp_content tool_uses flat_map app].
  unfold bind at 1. cbn [run_tool_calls]. unfold bind at 1, lift_world at 1.
  cbn [outside asked].
  pose proof (registry_task_throws id (cfg_gatewayUrl config) context (outside s) e
                Hparse Hnet Hname) as Hthrow.
  destruct (executeMappedTool _ _ _ (outside s)) as [res w']. simpl in Hthrow. subst res.
  eexists. split; [reflexivity|].
  cbn [asked]. rewrite length_app. simpl. lia.
Qed.

(** C2, at the input that breaks it: the provider asks for the
    [registry_task] tool to run [ping] while the gateway is unreachable.
    The network failure leaves [runAgentTurn] as an exception after the
    first provider call. *)
Theorem agent_turn_escapes (provider : Provider) (history : list AgentMessage)
    (config : AgentConfig) (s : AgentWorld) (id : string) (e : Exn) :
  getAnthropicClient = Ok provider ->
  parseCommand "/ping" = PPing ->
  (forall n req,
      provider n req =
      Ok (mkProviderResponse
            (Some [BToolUse (mkToolUse id "registry_task" (JObj [("command", JStr "ping")]))]))) ->
  (forall req, net (outside s) (length (sent (outside s))) req = NetworkFails e) ->
  String.eqb (exn_name e) "AbortError" = false ->
  fst (runAgentTurn history config s) = Throw e /\
  length (asked (snd (runAgentTurn history config s))) = S (length (asked s)).
Proof.
  intros Hclient Hparse Hprovider Hnet Hname.
  unfold runAgentTurn. rewrite Hclient. unfold of_result. unfold bind at 1.
  match goal with
  | |- context [while_loop provider ?sp config ?ctx 5 ?st0] =>
      destruct (while_loop_escapes provider sp config ctx id e 4 st0 s
                  Hparse Hprovider Hnet Hname) as (s' & Hrun & Hlen);
        [cbn [toolIteration]; lia|]
  end.
  unfold bind. rewrite Hrun. split; [reflexivity | exact Hlen].
Qed.

(** * More of the code *)

(** ** The turn of the agent as a sequence of provider requests *)

(** The system prompt of a turn: the fixed prompt, then the system messages
    of the history. *)
Definition system_prompt_of (history : list AgentMessage) : string :=
  Js.join (LFs ++ LFs)
    (buildSystemPrompt :: map content (filter (fun msg => is_system (role msg)) history)).

(** The conversation a turn starts from. *)
Definition initial_conversation (history : list AgentMessage) : list ConversationEntry :=
  let entries :=
    map (fun msg => mkEntry (role_name (role msg)) (CString (content msg)))
        (filter (fun msg => is_user_or_assistant (role msg)) history) in
  match entries with
  | [] =>
      let joined :=
        Js.join LFs (map content (filter (fun msg => negb (is_system (role msg))) history)) in
      [mkEntry "user" (CString (if Js.nonempty joined then joined else "Hello."))]
  | _ :: _ => entries
  end.

(** The provider request of a turn for the conversation [conv]. *)
Definition request_for (systemPrompt : string) (config : AgentConfig)
    (conv : list ConversationEntry) : ProviderRequest :=
  mkProviderRequest (match cfg_model config with Some m => m | None => DEFAULT_MODEL end)
                    systemPrompt conv 1024 anthropicTools.

(** The entries that report the outputs [outs] of the tool calls [calls]. *)
Definition tool_result_entries (calls : list ToolUse) (outs : list string)
    : list ConversationEntry :=
  map (fun p => mkEntry "user" (CBlocks [BToolResult (tu_id (fst p)) (snd p)]))
      (combine calls outs).

(** What the provider gave to the requests [reqs], the first of which is its
    [n]-th. *)
Fixpoint replies (provider : Provider) (n : nat) (reqs : list ProviderRequest)
    : list (result ProviderResponse) :=
  match reqs with
  | [] => []
  | r :: rest => provider n r :: replies provider (S n) rest
  end.

(** The names of the tools a reply asks for. *)
Definition reply_tools (reply : result ProviderResponse) : list string :=
  match reply with
  | Ok response => map tu_name (tool_uses (blocks_of response))
  | Throw _ => []
  end.

(** Requests that follow one another as the loop makes them: the first
    carries [conv], and each next one carries the conversation of the one
    before it, then the response to that one, then one tool result for
    each tool call of that response, in order and under the identifier of
    the call. *)
Fixpoint chained (provider : Provider) (systemPrompt : string) (config : AgentConfig)
    (n : nat) (conv : list ConversationEntry) (reqs : list ProviderRequest) : Prop :=
  match reqs with
  | [] => True
  | r :: rest =>
      r = request_for systemPrompt config conv /\
      match rest with
      | [] => True
      | _ :: _ =>
          exists response outs,
            provider n r = Ok response /\
            tool_uses (blocks_of response) <> [] /\
            length outs = length (tool_uses (blocks_of response)) /\
            chained provider systemPrompt config (S n)
              (conv ++ mkEntry "assistant" (CBlocks (blocks_of response))
                    :: tool_result_entries (tool_uses (blocks_of response)) outs)%list
              rest
      end
  end.

Lemma run_tool_calls_trace (config : AgentConfig) (context : TaskContext)
    (calls : list ToolUse) (st : LoopState) (s : AgentWorld) :
  asked (snd (run_tool_calls config context calls st s)) = asked s /\
  match fst (run_tool_calls config context calls st s) with
  | Ok st' =>
      exists outs,
        length outs = length calls /\
        conversation st' = (conversation st ++ tool_result_entries calls outs)%list /\
        toolIteration st' = toolIteration st /\
        finalMessages st' = finalMessages st /\
        map to_name (loop_outputs st') = (map to_name (loop_outputs st) ++ map tu_name calls)%list
  | Throw _ => True
  end.
Proof.
  revert st s. induction calls as [|call calls IH]; intros st s.
  - simpl. split; [reflexivity|]. exists []. rewrite !app_nil_r. repeat split.
  - cbn [run_tool_calls]. unfold bind at 1 2, lift_world at 1 2.
    destruct (executeMappedTool _ _ _ (outside s)) as [[r|e] w']; [|simpl; auto].
    match goal with
    | |- context [run_tool_calls config context calls ?st1 ?s1] =>
        destruct (IH st1 s1) as [Hasked Hres];
        destruct (run_tool_calls config context calls st1 s1) as [[st'|e] s']
    end; simpl in *; [|auto].
    split; [exact Hasked|].
    destruct Hres as (outs & Hlen & Hconv & Hiter & Hfinal & Hnames).
    exists (output r :: outs). simpl.
    split; [congruence|]. split; [rewrite Hconv, <- app_assoc; reflexivity|].
    split; [exact Hiter|]. split; [exact Hfinal|].
    rewrite Hnames, map_app, <- app_assoc. reflexivity.
Qed.

(** One iteration of the loop. *)
Lemma while_loop_step (provider : Provider) (systemPrompt : string) (config : AgentConfig)
    (context : TaskContext) (turns : nat) (st : LoopState) (s : AgentWorld) :
  (toolIteration st < 5)%nat ->
  let req := request_for systemPrompt config (conversation st) in
  let s1 := mkAW (asked s ++ [req]) (outside s) in
  while_loop provider systemPrompt config context (S turns) st s =
  match provider (length (asked s)) req with
  | Throw e => (Throw e, s1)
  | Ok response =>
      match tool_uses (blocks_of response) with
      | [] =>
          (Ok (mkLoop (toolIteration st) (conversation st)
                      (finalMessages st
                       ++ [mkMessage RAssistant
                             (Js.join LFs (map text_of (filter is_text (blocks_of response))))])
                      (loop_outputs st)), s1)
      | call :: calls =>
          match run_tool_calls config context (call :: calls)
                  (mkLoop (toolIteration st)
                          (conversation st
                           ++ [mkEntry "assistant" (CBlocks (blocks_of response))])
                          (finalMessages st) (loop_outputs st)) s1 with
          | (Throw e, s2) => (Throw e, s2)
          | (Ok st1, s2) =>
              while_loop provider systemPrompt config context turns
                (mkLoop (S (toolIteration st1)) (conversation st1)
                        (finalMessages st1) (loop_outputs st1)) s2
          end
      end
  end.
Proof.
  intros Hlt req s1. cbn [while_loop].
  replace (toolIteration st <? 5)%nat with true by (symmetry; apply Nat.ltb_lt; lia).
  unfold bind at 1, create.
  fold (request_for systemPrompt config (conversation st)). fold req. fold s1.
  destruct (provider (length (asked s)) req) as [response|e]; [|reflexivity].
  cbv zeta.
  destruct (tool_uses (blocks_of response)) as [|call calls]; [reflexivity|].
  unfold bind.
  destruct (run_tool_calls _ _ _ _ s1) as [[st1|e] s2]; reflexivity.
Qed.

(** What the loop leaves, from a state with [turns] iterations left. *)
Lemma while_loop_trace (provider : Provider) (systemPrompt : string) (config : AgentConfig)
    (context : TaskContext) (turns : nat) (st : LoopState) (s : AgentWorld) :
  (toolIteration st + turns = 5)%nat ->
  exists new,
    asked (snd (while_loop provider systemPrompt config context turns st s))
      = (asked s ++ new)%list /\
    (length new <= turns)%nat /\
    (turns <> 0%nat -> new <> []) /\
    chained provider systemPrompt config (length (asked s)) (conversation st) new /\
    match fst (while_loop provider systemPrompt config context turns st s) with
    | Ok st' =>
        map to_name (loop_outputs st')
          = (map to_name (loop_outputs st)
             ++ flat_map reply_tools (replies provider (length (asked s)) new))%list /\
        ((toolIteration st' = 5%nat /\ finalMessages st' = finalMessages st /\
          length new = turns) \/
         ((toolIteration st' < 5)%nat /\
          exists response,
            last (replies provider (length (asked s)) new) (Throw (Error EmptyString))
              = Ok response /\
            tool_uses (blocks_of response) = [] /\
            finalMessages st' =
              (finalMessages st
               ++ [mkMessage RAssistant
                     (Js.join LFs (map text_of (filter is_text (blocks_of response))))])%list))
    | Throw _ => True
    end.
Proof.
  revert st s. induction turns as [|turns IH]; intros st s Hsum.
  - exists []. simpl. rewrite !app_nil_r.
    split; [reflexivity|]. split; [lia|]. split; [congruence|]. split; [exact I|].
    split; [reflexivity|]. left. repeat split. lia.
  - rewrite while_loop_step by lia. cbv zeta.
    set (req := request_for systemPrompt config (conversation st)).
    assert (Hhead : chained provider systemPrompt config (length (asked s))
                            (conversation st) [req]) by (split; [reflexivity | exact I]).
    destruct (provider (length (asked s)) req) as [response|e] eqn:Hreply.
    2:{ exists [req]. simpl.
        split; [reflexivity|]. split; [lia|]. split; [discriminate|].
        split; [exact Hhead | exact I]. }
    destruct (tool_uses (blocks_of response)) as [|call calls] eqn:Hcalls.
    { exists [req]. cbn [fst snd asked length replies flat_map last].
      rewrite Hreply. cbn [reply_tools]. rewrite Hcalls.
      split; [reflexivity|]. split; [lia|]. split; [discriminate|].
      split; [exact Hhead|].
      split; [rewrite app_nil_r; reflexivity|].
      right. split; [cbn [toolIteration]; lia|]. exists response.
      split; [reflexivity|]. split; [exact Hcalls | reflexivity]. }
    match goal with
    | |- context [run_tool_calls config context (call :: calls) ?st1 ?s1] =>
        destruct (run_tool_calls_trace config context (call :: calls) st1 s1)
          as [Hasked Hres];
        destruct (run_tool_calls config context (call :: calls) st1 s1) as [[st1'|e] s1']
    end; cbn [fst snd asked] in Hasked, Hres.
    2:{ exists [req]. cbn [fst snd]. rewrite Hasked.
        split; [reflexivity|]. split; [simpl; lia|]. split; [discriminate|].
        split; [exact Hhead | exact I]. }
    destruct Hres as (outs & Hlen & Hconv & Hiter & Hfinal & Hnames).
    cbn [conversation toolIteration finalMessages loop_outputs] in Hconv, Hiter, Hfinal, Hnames.
    set (st2 := mkLoop (S (toolIteration st1')) (conversation st1')
                       (finalMessages st1') (loop_outputs st1')).
    destruct (IH st2 s1') as (new & Hnew & Hle & Hsome & Hchain & Hok);
      [unfold st2; cbn [toolIteration]; lia|].
    assert (Hn : length (asked s1') = S (length (asked s))).
    { rewrite Hasked, length_app. simpl. lia. }
    rewrite Hn in Hchain, Hok.
    unfold st2 in Hchain, Hok. cbn [conversation loop_outputs finalMessages] in Hchain, Hok.
    fold st2 in Hok.
    exists (req :: new).
    split; [rewrite Hnew, Hasked, <- app_assoc; reflexivity|].
    split; [simpl; lia|]. split; [discriminate|].
    split.
    { cbn [chained]. split; [reflexivity|].
      destruct new as [|r' new']; [exact I|].
      exists response, outs.
      split; [exact Hreply|]. split; [rewrite Hcalls; discriminate|].
      split; [rewrite Hcalls; exact Hlen|].
      rewrite Hcalls. rewrite Hconv, <- app_assoc in Hchain. exact Hchain. }
    destruct (fst (while_loop provider systemPrompt config context turns st2 s1'))
      as [st'|e]; [|exact I].
    destruct Hok as [Hout Hend].
    cbn [replies flat_map]. rewrite Hreply. cbn [reply_tools]. rewrite Hcalls.
    split.
    { rewrite Hout, Hnames, <- app_assoc. reflexivity. }
    rewrite Hfinal in Hend.
    destruct Hend as [(H5 & Hf & Hl)|(Hlt & resp & Hlast & Hnone & Hf)].
    + left. repeat split; [exact H5 | exact Hf | simpl; lia].
    + right. split; [exact Hlt|]. exists resp.
      split; [|split; assumption].
      destruct new as [|r' new']; [simpl in Hlast; discriminate|].
      exact Hlast.
Qed.

(** [runAgentTurn] as its loop and the message of the limit. *)
Lemma runAgentTurn_run (provider : Provider) (history : list AgentMessage)
    (config : AgentConfig) (s : AgentWorld) :
  getAnthropicClient = Ok provider ->
  runAgentTurn history config s =
  match while_loop provider (system_prompt_of history) config
          (buildTaskContext (cfg_gatewayUrl config) (cfg_gatewayBaseUrl config)
                            (cfg_gatewayToken config) (cfg_backendToken config))
          5 (mkLoop 0 (initial_conversation history) [] []) s with
  | (Ok st, s') =>
      (Ok (mkAgentResult
             (if (5 <=? toolIteration st)%nat
              then (finalMessages st ++ [mkMessage RAssistant limit_message])%list
              else finalMessages st)
             (loop_outputs st)), s')
  | (Throw e, s') => (Throw e, s')
  end.
Proof.
  intros Hclient. unfold runAgentTurn. rewrite Hclient. unfold of_result.
  unfold bind at 1. cbv zeta.
  fold (system_prompt_of history). fold (initial_conversation history).
  unfold bind.
  destruct (while_loop _ _ _ _ 5 _ s) as [[st|e] s']; reflexivity.
Qed.

Lemma chained_pair (provider : Provider) (systemPrompt : string) (config : AgentConfig)
    (before : list ProviderRequest) :
  forall n conv r r' after,
    chained provider systemPrompt config n conv (before ++ r :: r' :: after)%list ->
    exists response outs,
      provider (n + length before)%nat r = Ok response /\
      tool_uses (blocks_of response) <> [] /\
      length outs = length (tool_uses (blocks_of response)) /\
      r' = request_for systemPrompt config
             (pr_messages r
              ++ mkEntry "assistant" (CBlocks (blocks_of response))
                 :: tool_result_entries (tool_uses (blocks_of response)) outs)%list.
Proof.
  induction before as [|b before IH]; intros n conv r r' after H.
  - simpl in H. destruct H as (Hr & response & outs & Hreply & Hsome & Hlen & Hrest).
    exists response, outs. rewrite Nat.add_0_r.
    split; [exact Hreply|]. split; [exact Hsome|]. split; [exact Hlen|].
    destruct Hrest as [Hr' _]. rewrite Hr'. subst r. reflexivity.
  - cbn [app chained] in H. destruct H as (_ & H).
    destruct (before ++ r :: r' :: after)%list as [|x xs] eqn:E;
      [destruct before; discriminate|].
    destruct H as (response & outs & _ & _ & _ & Hrest).
    rewrite <- E in Hrest.
    destruct (IH _ _ _ _ _ Hrest) as (response' & outs' & H1 & H2 & H3 & H4).
    exists response', outs'.
    replace (n + length (b :: before))%nat with (S n + length before)%nat by (simpl; lia).
    auto.
Qed.

Lemma chained_shape (provider : Provider) (systemPrompt : string) (config : AgentConfig)
    (before : list ProviderRequest) :
  forall n conv r rest,
    chained provider systemPrompt config n conv (before ++ r :: rest)%list ->
    r = request_for systemPrompt config (pr_messages r).
Proof.
  induction before as [|b before IH]; intros n conv r rest H.
  - destruct H as [-> _]. reflexivity.
  - cbn [app chained] in H. destruct H as (_ & H).
    destruct (before ++ r :: rest)%list as [|x xs] eqn:E;
      [destruct before; discriminate|].
    destruct H as (response & outs & _ & _ & _ & Hrest).
    rewrite <- E in Hrest. exact (IH _ _ _ _ Hrest).
Qed.

(** X1: whatever the provider and the tools do, a turn makes at most five
    provider requests, and at least one when a provider client is to be
    had; when none is to be had the turn throws at once and leaves the
    world as it was. *)
Theorem agent_turn_bounded (history : list AgentMessage) (config : AgentConfig)
    (s : AgentWorld) :
  exists new,
    asked (snd (runAgentTurn history config s)) = (asked s ++ new)%list /\
    (length new <= 5)%nat /\
    (is_ok getAnthropicClient = true -> new <> []) /\
    (is_ok getAnthropicClient = false ->
     snd (runAgentTurn history config s) = s /\
     is_ok (fst (runAgentTurn history config s)) = false).
Proof.
  destruct getAnthropicClient as [provider|e] eqn:Hclient.
  - rewrite (runAgentTurn_run provider) by exact Hclient.
    destruct (while_loop_trace provider (system_prompt_of history) config
                (buildTaskContext (cfg_gatewayUrl config) (cfg_gatewayBaseUrl config)
                                  (cfg_gatewayToken config) (cfg_backendToken config))
                5 (mkLoop 0 (initial_conversation history) [] []) s eq_refl)
      as (new & Hnew & Hle & Hsome & _).
    exists new.
    destruct (while_loop _ _ _ _ 5 _ s) as [[st|e] s']; simpl in Hnew |- *;
      (split; [exact Hnew|]; split; [exact Hle|];
       split; [intros _; apply Hsome; discriminate | discriminate]).
  - exists []. unfold runAgentTurn. rewrite Hclient. simpl.
    rewrite app_nil_r. split; [reflexivity|]. split; [lia|].
    split; [discriminate|]. intros _. split; reflexivity.
Qed.


(** X3: the tool outputs of a turn that returns are, in order, one for each
    tool call of each provider response of the turn, under the name of the
    tool the call asked for. *)
Theorem agent_turn_outputs (provider : Provider) (history : list AgentMessage)
    (config : AgentConfig) (s : AgentWorld) (result : AgentResult) :
  getAnthropicClient = Ok provider ->
  fst (runAgentTurn history config s) = Ok result ->
  exists new,
    asked (snd (runAgentTurn history config s)) = (asked s ++ new)%list /\
    map to_name (toolOutputs result)
      = flat_map reply_tools (replies provider (length (asked s)) new).
Proof.
  intros Hclient. rewrite (runAgentTurn_run provider) by exact Hclient.
  destruct (while_loop_trace provider (system_prompt_of history) config
              (buildTaskContext (cfg_gatewayUrl config) (cfg_gatewayBaseUrl config)
                                (cfg_gatewayToken config) (cfg_backendToken config))
              5 (mkLoop 0 (initial_conversation history) [] []) s eq_refl)
    as (new & Hnew & _ & _ & _ & Hok).
  destruct (while_loop _ _ _ _ 5 _ s) as [[st|e] s'];
    cbn [fst snd finalMessages loop_outputs app map] in Hnew, Hok |- *; [|discriminate].
  intros [= <-]. exists new. split; [exact Hnew|]. exact (proj1 Hok).
Qed.

(** X4: of two provider requests of a turn that follow one another, the
    first was answered with at least one tool call, and the second carries
    the same model, system prompt and tools with the conversation of the
    first, then the blocks of that answer as an assistant entry, then one
    tool-result entry for each tool call of the answer, in order, under the
    identifier of its call. *)
Theorem agent_turn_conversation (provider : Provider) (history : list AgentMessage)
    (config : AgentConfig) (s : AgentWorld)
    (before : list ProviderRequest) (r r' : ProviderRequest) (after : list ProviderRequest) :
  getAnthropicClient = Ok provider ->
  asked (snd (runAgentTurn history config s)) = (asked s ++ before ++ r :: r' :: after)%list ->
  exists response outs,
    provider (length (asked s) + length before)%nat r = Ok response /\
    tool_uses (blocks_of response) <> [] /\
    length outs = length (tool_uses (blocks_of response)) /\
    r' = mkProviderRequest (pr_model r) (pr_system r)
           (pr_messages r
            ++ mkEntry "assistant" (CBlocks (blocks_of response))
               :: map (fun p => mkEntry "user" (CBlocks [BToolResult (tu_id (fst p)) (snd p)]))
                      (combine (tool_uses (blocks_of response)) outs))%list
           (pr_max_tokens r) (pr_tools r).
Proof.
  intros Hclient. rewrite (runAgentTurn_run provider) by exact Hclient.
  destruct (while_loop_trace provider (system_prompt_of history) config
              (buildTaskContext (cfg_gatewayUrl config) (cfg_gatewayBaseUrl config)
                                (cfg_gatewayToken config) (cfg_backendToken config))
              5 (mkLoop 0 (initial_conversation history) [] []) s eq_refl)
    as (new & Hnew & _ & _ & Hchain & _).
  intros Hasked.
  assert (Hsame : new = (before ++ r :: r' :: after)%list).
  { destruct (while_loop _ _ _ _ 5 _ s) as [[st|e] s']; simpl in Hnew, Hasked;
      rewrite Hnew in Hasked; exact (app_inv_head _ _ _ Hasked). }
  rewrite Hsame in Hchain.
  destruct (chained_pair _ _ _ _ _ _ _ _ _ Hchain) as (response & outs & H1 & H2 & H3 & H4).
  exists response, outs. split; [exact H1|]. split; [exact H2|]. split; [exact H3|].
  pose proof (chained_shape _ _ _ _ _ _ _ _ Hchain) as Hr.
  assert (Hfields :
            pr_model r = match cfg_model config with Some m => m | None => DEFAULT_MODEL end /\
            pr_system r = system_prompt_of history /\
            pr_max_tokens r = 1024 /\
            pr_tools r = anthropicTools) by (rewrite Hr; repeat split).
  destruct Hfields as (-> & -> & -> & ->).
  rewrite H4. reflexivity.
Qed.

Lemma initial_conversation_roles (history : list AgentMessage) :
  initial_conversation history <> [] /\
  Forall (fun e => entry_role e = "user" \/ entry_role e = "assistant")
         (initial_conversation history) /\
  (filter (fun msg => is_user_or_assistant (role msg)) history = [] ->
   initial_conversation history = [mkEntry "user" (CString "Hello.")]).
Proof.
  unfold initial_conversation. cbv zeta.
  assert (Hsame : filter (fun msg => negb (is_system (role msg))) history
                  = filter (fun msg => is_user_or_assistant (role msg)) history).
  { apply filter_ext. intros [[| |] c]; reflexivity. }
  rewrite Hsame.
  assert (Hroles : Forall (fun e => entry_role e = "user" \/ entry_role e = "assistant")
                     (map (fun msg => mkEntry (role_name (role msg)) (CString (content msg)))
                          (filter (fun msg => is_user_or_assistant (role msg)) history))).
  { apply Forall_map, Forall_forall. intros [[| |] c] Hin; apply filter_In in Hin as [_ Hrole];
      simpl in *; auto; discriminate. }
  destruct (filter (fun msg => is_user_or_assistant (role msg)) history) as [|m ms] eqn:E.
  - simpl. split; [discriminate|]. split; [|reflexivity].
    constructor; [left; reflexivity | constructor].
  - split; [simpl; discriminate|]. split; [exact Hroles | discriminate].
Qed.

(** X5: the first provider request of a turn asks for at most 1024 tokens
    with the two tools, under the fixed system prompt followed by the system
    messages of the history, and its conversation is the user and assistant
    messages of the history, in order and never empty: when the history has
    no such message the conversation is the one user message [Hello.]. *)
Theorem agent_turn_first_request (provider : Provider) (history : list AgentMessage)
    (config : AgentConfig) (s : AgentWorld) :
  getAnthropicClient = Ok provider ->
  exists first rest,
    asked (snd (runAgentTurn history config s)) = (asked s ++ first :: rest)%list /\
    pr_max_tokens first = 1024 /\
    pr_tools first = anthropicTools /\
    pr_system first =
      Js.join (LFs ++ LFs)
        (buildSystemPrompt :: map content (filter (fun msg => is_system (role msg)) history)) /\
    pr_messages first <> [] /\
    Forall (fun e => entry_role e = "user" \/ entry_role e = "assistant") (pr_messages first) /\
    (forall m ms,
       filter (fun msg => is_user_or_assistant (role msg)) history = m :: ms ->
       pr_messages first =
       map (fun msg => mkEntry (role_name (role msg)) (CString (content msg))) (m :: ms)) /\
    (filter (fun msg => is_user_or_assistant (role msg)) history = [] ->
     pr_messages first = [mkEntry "user" (CString "Hello.")]).
Proof.
  intros Hclient. rewrite (runAgentTurn_run provider) by exact Hclient.
  destruct (while_loop_trace provider (system_prompt_of history) config
              (buildTaskContext (cfg_gatewayUrl config) (cfg_gatewayBaseUrl config)
                                (cfg_gatewayToken config) (cfg_backendToken config))
              5 (mkLoop 0 (initial_conversation history) [] []) s eq_refl)
    as (new & Hnew & _ & Hsome & Hchain & _).
  destruct new as [|first rest]; [exfalso; apply Hsome; [discriminate | reflexivity]|].
  exists first, rest.
  split.
  { destruct (while_loop _ _ _ _ 5 _ s) as [[st|e] s']; exact Hnew. }
  destruct Hchain as [-> _]. cbn [request_for pr_max_tokens pr_tools pr_system pr_messages].
  destruct (initial_conversation_roles history) as (Hne & Hroles & Hhello).
  split; [reflexivity|]. split; [reflexivity|]. split; [reflexivity|].
  split; [exact Hne|]. split; [exact Hroles|]. split; [|exact Hhello].
  intros m ms E. unfold initial_conversation. cbv zeta. rewrite E. reflexivity.
Qed.

(** ** The requests of an instance *)

(** The payload of a numbered method call. *)
Definition method_payload (m : Method) (id : Z) : JsonRpcRequest :=
  match m with
  | CallInitialize => mkRpc (Some id) "initialize" (Some initialize_params)
  | CallPing => mkRpc (Some id) "ping" None
  | CallListTools => mkRpc (Some id) "tools/list" None
  | CallCallTool name args =>
      mkRpc (Some id) "tools/call" (Some (JObj [("name", JStr name); ("arguments", args)]))
  end.

Lemma call_first_request (m : Method) (s : ClientWorld) :
  let id := requestId (this s) + 1 in
  requestId (this (snd (call m s))) = id /\
  exists more,
    sent (world (snd (call m s)))
      = (sent (world s)
         ++ request_of (set_requestId id (this s)) (method_payload m id) :: more)%list /\
    (length more <= 1)%nat /\
    Forall (fun r => exists c, r = request_of c (mkRpc None "notifications/initialized" None))
           more.
Proof.
  intros id. unfold id.
  assert (Hnumbered : forall p,
            requestId (this (snd ((i <- nextRequestId ;; execute (p i) false) s)))
              = requestId (this s) + 1 /\
            sent (world (snd ((i <- nextRequestId ;; execute (p i) false) s)))
              = (sent (world s)
                 ++ request_of (set_requestId (requestId (this s) + 1) (this s))
                               (p (requestId (this s) + 1)) :: [])%list).
  { intros p. unfold bind. rewrite nextRequestId_run. rewrite execute_state.
    split; reflexivity. }
  destruct m as [| | |name args]; simpl call.
  - rewrite initialize_run. cbv zeta.
    destruct (fst (execute _ false _)) eqn:Hfirst; cbn [snd];
      rewrite ?execute_state; cbn [this world requestId set_sessionId set_requestId sent].
    + split; [reflexivity|]. eexists. rewrite <- app_assoc. split; [reflexivity|].
      split; [simpl; lia|]. constructor; [eexists; reflexivity | constructor].
    + split; [reflexivity|]. exists []. split; [reflexivity|]. split; [simpl; lia | constructor].
  - destruct (Hnumbered (fun i => mkRpc (Some i) "ping" None)) as [H1 H2].
    split; [exact H1|]. exists []. split; [exact H2|]. split; [simpl; lia | constructor].
  - destruct (Hnumbered (fun i => mkRpc (Some i) "tools/list" None)) as [H1 H2].
    split; [exact H1|]. exists []. split; [exact H2|]. split; [simpl; lia | constructor].
  - destruct (Hnumbered (fun i => mkRpc (Some i) "tools/call"
                   (Some (JObj [("name", JStr name); ("arguments", args)])))) as [H1 H2].
    split; [exact H1|]. exists []. split; [exact H2|]. split; [simpl; lia | constructor].
Qed.

(** X6: every method call takes the next request number, whether it returns
    or throws: its first request carries the number of the instance plus
    one as its [id], the only other request a call can send is the
    [initialized] notification, which has no [id], and after any sequence of
    calls the number of the instance has grown by the length of the
    sequence. *)
Theorem request_numbers (m : Method) (ms : list Method) (s : ClientWorld) :
  let id := requestId (this s) + 1 in
  (exists more,
     sent (world (snd (call m s)))
       = (sent (world s)
          ++ request_of (set_requestId id (this s)) (method_payload m id) :: more)%list /\
     JsValue.prop "id" (payload_json (method_payload m id)) = Some (JNum (inject_Z id)) /\
     Forall (fun r => exists c,
               r = request_of c (mkRpc None "notifications/initialized" None)) more /\
     JsValue.prop "id" (payload_json (mkRpc None "notifications/initialized" None)) = None) /\
  requestId (this (run_calls ms s)) = requestId (this s) + Z.of_nat (length ms).
Proof.
  intros id. split.
  - destruct (call_first_request m s) as (_ & more & Hsent & _ & Hmore).
    exists more. split; [exact Hsent|].
    split; [destruct m; reflexivity|]. split; [exact Hmore | reflexivity].
  - clear m id. revert s. induction ms as [|m ms IH]; intros s.
    + simpl. lia.
    + cbn [run_calls length]. rewrite IH.
      destruct (call_first_request m s) as (-> & _). lia.
Qed.

Lemma buildHeaders_fixed (c : McpClient) :
  headers_get (buildHeaders c) "content-type" = Some "application/json" /\
  headers_get (buildHeaders c) "accept" = Some "application/json, text/event-stream" /\
  headers_get (buildHeaders c) "user-agent" = Some "mcp-ink-cli/0.1.0" /\
  headers_get (buildHeaders c) "x-authorization"
    = (if truthy_str (gatewayToken c) then Some (bearer (gatewayToken c)) else None) /\
  headers_get (buildHeaders c) "authorization"
    = (if truthy_str (backendToken c) then Some (bearer (backendToken c)) else None).
Proof.
  unfold buildHeaders, headers_get.
  destruct (truthy_str (gatewayToken c)), (truthy_str (backendToken c)),
    (sessionId c) as [sid|]; try destruct (Js.nonempty sid); repeat split.
Qed.

Lemma steps_tokens (s s' : ClientWorld) :
  steps s s' ->
  gatewayToken (this s') = gatewayToken (this s) /\
  backendToken (this s') = backendToken (this s) /\
  exists new,
    sent (world s') = (sent (world s) ++ new)%list /\
    Forall (fun r => exists c,
              r = mkRequest (url c) "POST" (buildHeaders c) (req_body r) /\
              gatewayToken c = gatewayToken (this s) /\
              backendToken c = backendToken (this s)) new.
Proof.
  induction 1 as [s|s1 s2 s3 H12 H23 IH].
  - split; [reflexivity|]. split; [reflexivity|]. exists []. rewrite app_nil_r. auto.
  - destruct IH as (Hg & Hb & new & Hsent & Hall).
    destruct H12 as [s v|s payload ie].
    + simpl in *. split; [exact Hg|]. split; [exact Hb|]. exists new. auto.
    + rewrite execute_state in *. simpl in *.
      split; [exact Hg|]. split; [exact Hb|].
      exists (request_of (this s) payload :: new).
      rewrite <- app_assoc in Hsent. split; [exact Hsent|].
      constructor; [|exact Hall].
      exists (this s). repeat split.
Qed.

(** X7: every request an instance sends in its life is a POST with the JSON
    content type, the accept header for JSON and event streams and the
    fixed user agent; it carries the gateway token of the options, when
    that is not empty, as a bearer in [x-authorization], and the backend
    token likewise in [authorization], each independently of the other. *)
Theorem request_shape (options : McpClientOptions) (w : World) (ms : list Method) :
  exists new,
    sent (world (run_calls ms (mkCW (constructor options) w))) = (sent w ++ new)%list /\
    Forall (fun r =>
              req_method r = "POST" /\
              headers_get (req_headers r) "content-type" = Some "application/json" /\
              headers_get (req_headers r) "accept"
                = Some "application/json, text/event-stream" /\
              headers_get (req_headers r) "user-agent" = Some "mcp-ink-cli/0.1.0" /\
              headers_get (req_headers r) "x-authorization"
                = match opt_gatewayToken options with
                  | Some t => if Js.nonempty t then Some ("Bearer " ++ t) else None
                  | None => None
                  end /\
              headers_get (req_headers r) "authorization"
                = match opt_backendToken options with
                  | Some t => if Js.nonempty t then Some ("Bearer " ++ t) else None
                  | None => None
                  end) new.
Proof.
  destruct (steps_tokens _ _ (run_calls_steps ms (mkCW (constructor options) w)))
    as (_ & _ & new & Hsent & Hall).
  exists new. split; [exact Hsent|].
  eapply Forall_impl; [|exact Hall].
  intros r (c & -> & Hg & Hb). simpl in Hg, Hb.
  destruct (buildHeaders_fixed c) as (H1 & H2 & H3 & H4 & H5).
  cbn [req_method req_headers].
  split; [reflexivity|]. split; [exact H1|]. split; [exact H2|]. split; [exact H3|].
  rewrite H4, H5, Hg, Hb. unfold truthy_str, bearer.
  split.
  - destruct (opt_gatewayToken options) as [t|]; [destruct (Js.nonempty t)|]; reflexivity.
  - destruct (opt_backendToken options) as [t|]; [destruct (Js.nonempty t)|]; reflexivity.
Qed.

(** X8: a response with a status in 200..299 whose body arrives is never
    turned into an HTTP error: [execute] returns what the body decodes to,
    an envelope with an [error] member included, and the one thing it can
    throw is the syntax error of a body that is not empty, is no event
    stream and does not parse. *)
Theorem success_status_decoded (payload : JsonRpcRequest) (s : ClientWorld)
    (r : Response) (raw : string) :
  net (world s) (length (sent (world s))) (request_of (this s) payload) = Responds r ->
  body r = BodyText raw ->
  ok r = true ->
  (forall v,
     JSON_parse raw = Some v ->
     Js.nonempty raw = true ->
     Js.includes "text/event-stream" (content_type r) = false ->
     fst (execute payload false s) = Ok v) /\
  (raw = EmptyString -> fst (execute payload false s) = Ok (JObj [("jsonrpc", JStr "2.0")])) /\
  ((exists v, fst (execute payload false s) = Ok v) \/
   (fst (execute payload false s) = Throw (mkExn "SyntaxError" (JSON_syntax_message raw)) /\
    JSON_parse raw = None /\
    Js.nonempty raw = true /\
    Js.includes "text/event-stream" (content_type r) = false)).
Proof.
  intros Hnet Hbody Hok.
  rewrite (execute_text _ _ _ _ _ Hnet Hbody), Hok. cbn [negb andb].
  split; [|split].
  - intros v -> -> ->. reflexivity.
  - intros ->. reflexivity.
  - destruct (Js.nonempty raw); cbn [negb]; [|left; eauto].
    destruct (Js.includes _ _); [left; eauto|].
    destruct (JSON_parse raw); [left; eauto|].
    right. repeat split.
Qed.

(** X9: a request that is not best-effort and whose connection fails, before
    the response or while its body is read, throws the failure itself,
    unchanged, unless the failure is named [AbortError]: any failure of that
    name is reported as a timeout of the request, whether or not the timer
    fired. *)
Theorem failure_rethrown (payload : JsonRpcRequest) (s : ClientWorld) (e : Exn) :
  failure (net (world s) (length (sent (world s))) (request_of (this s) payload)) = Some e ->
  (exn_name e <> "AbortError" -> fst (execute payload false s) = Throw e) /\
  (exn_name e = "AbortError" ->
   fst (execute payload false s) =
   Throw (Error ("Request to " ++ url (this s) ++ " timed out after "
                   ++ Js.of_Z (timeout (this s)) ++ " ms"))).
Proof.
  intros Hfail. rewrite (execute_failure payload false s e Hfail).
  split; intros Hname.
  - apply String.eqb_neq in Hname. rewrite Hname. reflexivity.
  - apply String.eqb_eq in Hname. rewrite Hname. reflexivity.
Qed.

(** X10: the message of every HTTP error starts with [HTTP], the status and
    the status text; for an empty body it is just that and a full stop. *)
Theorem http_error_prefix (JSON_parse_empty : JSON_parse EmptyString = None)
    (payload : JsonRpcRequest) (s : ClientWorld) (r : Response) (raw : string) :
  net (world s) (length (sent (world s))) (request_of (this s) payload) = Responds r ->
  body r = BodyText raw ->
  ok r = false ->
  exists rest,
    fst (execute payload false s)
      = Throw (Error ("HTTP " ++ Js.of_Z (status r) ++ " " ++ statusText r ++ rest)) /\
    (Js.startsWith ": " rest = true \/ Js.startsWith "." rest = true) /\
    (raw = EmptyString -> rest = ".").
Proof.
  intros Hnet Hbody Hok.
  rewrite (execute_text _ _ _ _ _ Hnet Hbody), Hok. cbn [negb andb].
  unfold buildHttpError. rewrite http_error_message_cases.
  assert (A : forall a b c d : string, (a ++ b ++ c) ++ d = a ++ b ++ c ++ d).
  { intros a b c d. induction a as [|x a IH]; simpl; [|rewrite IH; reflexivity].
    induction b as [|x b IH]; simpl; [reflexivity | rewrite IH; reflexivity]. }
  unfold http_prefix.
  destruct (error_object (JSON_parse raw)) as [err|] eqn:Herr.
  - eexists. rewrite (A "HTTP "). split; [reflexivity|].
    split; [left; apply prefix_app|].
    intros ->. rewrite JSON_parse_empty in Herr. discriminate.
  - eexists. rewrite (A "HTTP "). split; [reflexivity|].
    split; [right; apply prefix_app|].
    intros ->. reflexivity.
Qed.

(** ** One gateway command *)

(** The method a gateway command calls after the handshake, if any. *)
Definition command_method (command : string) (callOptions : option (string * Json))
    : option Method :=
  if String.eqb command "ping" then Some CallPing
  else if String.eqb command "list" then Some CallListTools
  else if String.eqb command "call" then
    match callOptions with
    | Some (tool, args) => Some (CallCallTool tool args)
    | None => None
    end
  else None.

(** A gateway command as the calls it makes on its own instance. *)
Lemma executeMcpCommand_run (command gatewayUrl : string)
    (gatewayToken backendToken : option string) (callOptions : option (string * Json))
    (w : World) :
  let c := constructor (mkOptions gatewayUrl gatewayToken backendToken None) in
  let init := initialize (mkCW c w) in
  executeMcpCommand command gatewayUrl gatewayToken backendToken callOptions w =
  match fst init with
  | Throw e => (Throw e, world (snd init))
  | Ok h =>
      match command_method command callOptions with
      | Some m =>
          (match fst (call m (snd init)) with
           | Ok r => Ok (mkExec h r)
           | Throw e => Throw e
           end,
           world (snd (call m (snd init))))
      | None =>
          (if String.eqb command "call" then Throw (Error call_required) else Ok (mkExec h h),
           world (snd init))
      end
  end.
Proof.
  intros c init. unfold executeMcpCommand, with_new_client, command_method. fold c.
  unfold bind at 1. fold init.
  destruct init as [[h|e] s1]; cbn [fst snd]; [|reflexivity].
  destruct (String.eqb command "ping").
  { unfold bind, call. destruct (ping s1) as [[r|e] s2]; reflexivity. }
  destruct (String.eqb command "list").
  { unfold bind, call. destruct (listTools s1) as [[r|e] s2]; reflexivity. }
  destruct (String.eqb command "call"); [|reflexivity].
  destruct callOptions as [[tool args]|]; [|reflexivity].
  unfold bind, call. destruct (callTool tool args s1) as [[r|e] s2]; reflexivity.
Qed.



Lemma call_count (m : Method) (s : ClientWorld) :
  m <> CallInitialize ->
  length (sent (world (snd (call m s)))) = S (length (sent (world s))).
Proof.
  intros Hm.
  assert (Hnumbered : forall p,
            length (sent (world (snd ((i <- nextRequestId ;; execute (p i) false) s))))
              = S (length (sent (world s)))).
  { intros p. unfold bind. rewrite nextRequestId_run, execute_state. simpl.
    rewrite length_app. simpl. lia. }
  destruct m as [| | |name args]; [congruence| | |]; simpl call.
  - apply (Hnumbered (fun i => mkRpc (Some i) "ping" None)).
  - apply (Hnumbered (fun i => mkRpc (Some i) "tools/list" None)).
  - apply (Hnumbered (fun i => mkRpc (Some i) "tools/call"
                        (Some (JObj [("name", JStr name); ("arguments", args)])))).
Qed.

Lemma command_method_not_initialize (command : string)
    (callOptions : option (string * Json)) (m : Method) :
  command_method command callOptions = Some m -> m <> CallInitialize.
Proof.
  unfold command_method.
  destruct (String.eqb command "ping"); [intros [= <-]; discriminate|].
  destruct (String.eqb command "list"); [intros [= <-]; discriminate|].
  destruct (String.eqb command "call"); [|discriminate].
  destruct callOptions as [[tool args]|]; [intros [= <-]; discriminate | discriminate].
Qed.

(** X12: a gateway command sends one request when its handshake fails, and
    then throws the failure of the handshake; two, the handshake and the
    notification, when the handshake returns and the command is neither
    [ping], [list] nor a [call] with its options; three otherwise.  With two
    requests the command gives the handshake as its response too, unless it
    is a [call], which throws for want of its options. *)
Theorem command_requests (command gatewayUrl : string)
    (gatewayToken backendToken : option string) (callOptions : option (string * Json))
    (w : World) :
  let run := executeMcpCommand command gatewayUrl gatewayToken backendToken callOptions w in
  let init :=
    initialize (mkCW (constructor (mkOptions gatewayUrl gatewayToken backendToken None)) w) in
  match fst init with
  | Throw e =>
      fst run = Throw e /\ length (sent (snd run)) = (length (sent w) + 1)%nat
  | Ok h =>
      if String.eqb command "ping" || String.eqb command "list" ||
         (String.eqb command "call" &&
          match callOptions with Some _ => true | None => false end)
      then length (sent (snd run)) = (length (sent w) + 3)%nat
      else length (sent (snd run)) = (length (sent w) + 2)%nat /\
           fst run = if String.eqb command "call"
                     then Throw (Error "Tool name and args are required for /call.")
                     else Ok (mkExec h h)
  end.
Proof.
  intros run init. unfold run. rewrite executeMcpCommand_run. cbv zeta. fold init.
  assert (Hinit : length (sent (world (snd init)))
                  = match fst init with
                    | Ok _ => (length (sent w) + 2)%nat
                    | Throw _ => (length (sent w) + 1)%nat
                    end).
  { unfold init. rewrite initialize_run. cbv zeta.
    destruct (fst (execute _ false _)); cbn [fst snd]; rewrite ?execute_state; simpl;
      rewrite ?length_app; simpl; lia. }
  destruct (fst init) as [h|e]; [|split; [reflexivity | exact Hinit]].
  pose proof (command_method_not_initialize command callOptions) as Hm.
  unfold command_method in *.
  destruct (String.eqb command "ping");
    [cbn [orb fst snd]; rewrite call_count by (apply Hm; reflexivity); lia|].
  destruct (String.eqb command "list");
    [cbn [orb fst snd]; rewrite call_count by (apply Hm; reflexivity); lia|].
  destruct (String.eqb command "call"); cbn [orb andb].
  - destruct callOptions as [[tool args]|].
    + cbn [fst snd]. rewrite call_count by (apply Hm; reflexivity). lia.
    + split; [exact Hinit | reflexivity].
  - split; [exact Hinit | reflexivity].
Qed.

(** ** The dispatcher *)

(** X13: a command line resolved as help, as unknown, as a call without a
    tool name, as a call whose arguments are not JSON, or as a task the
    catalog does not resolve, is answered at once: nothing is sent and no
    script is run, the world is as before.  Only the help is not marked as
    an error, and the missing tool name is reported before the arguments
    are looked at. *)
Theorem slash_answered_locally (input : string) (context : TaskContext) (w : World) :
  match parseCommand input with
  | PHelp => executeSlashCommand input context w = (Ok (mkSlash [overviewMessage] None), w)
  | PUnknown message =>
      executeSlashCommand input context w = (Ok (mkSlash [message] (Some true)), w)
  | PCall parsed =>
      (truthy_str (call_tool parsed) = false ->
       executeSlashCommand input context w
       = (Ok (mkSlash ["Tool name is required for /call."] (Some true)), w)) /\
      (forall a,
         truthy_str (call_tool parsed) = true ->
         argsJson parsed = Some a ->
         Js.nonempty a = true ->
         JSON_parse a = None ->
         executeSlashCommand input context w
         = (Ok (mkSlash ["Invalid JSON for args: " ++ JSON_syntax_message a] (Some true)), w))
  | PTask parsed =>
      forall error,
        resolveTaskCommand parsed = inl error ->
        executeSlashCommand input context w = (Ok (mkSlash [error] (Some true)), w)
  | _ => True
  end.
Proof.
  unfold executeSlashCommand.
  destruct (parseCommand input) as [| | | |parsed|parsed|message]; try exact I;
    try reflexivity.
  - split.
    + apply executeCall_without_tool.
    + intros a Htool Ha Hnon Hparse. unfold executeCall.
      rewrite Htool, Ha. cbn [negb truthy_str]. rewrite Hnon, Hparse. reflexivity.
  - intros error ->. reflexivity.
Qed.




Lemma trim_head (c : ascii) (s : string) :
  Js.is_space c = false -> Js.nonempty (Js.trim (String c s)) = true.
Proof.
  intros Hc. unfold Js.trim. cbn [Js.trimStart]. rewrite Hc.
  cbn [Js.trimEnd]. rewrite Hc. destruct (Js.trimEnd s); reflexivity.
Qed.

(** X15: a task the catalog resolves and whose script runs to its end gives
    one line of text that is never marked as an error, whatever the exit
    code: the text starts with [$], the program and its arguments, and ends
    with the exit code, 0 when the runner gives none; the trimmed standard
    output and the standard error stand between them when they are not
    empty. *)
Theorem slash_task_result (input : string) (context : TaskContext) (w w' : World)
    (parsed : TaskCommand) (task : TaskDefinition) (values : FieldValues)
    (result : ScriptResult) :
  parseCommand input = PTask parsed ->
  resolveTaskCommand parsed = inr (task, values) ->
  runScriptTaskToString (category parsed) task values context w = (Ok result, w') ->
  exists middle,
    executeSlashCommand input context w
    = (Ok (mkSlash
             [("$ " ++ sc_command (sr_command result) ++ " "
                    ++ Js.join " " (sc_args (sr_command result)))
              ++ middle
              ++ LFs ++ LFs
              ++ "exitCode: " ++ Js.of_Z (match exitCode result with Some n => n | None => 0 end)]
             None), w') /\
    (Js.nonempty (Js.trim (stdout result)) = false ->
     Js.nonempty (stderr result) = false ->
     middle = EmptyString).
Proof.
  intros Hparse Hresolve Hrun.
  unfold executeSlashCommand. rewrite Hparse, Hresolve. unfold bind. rewrite Hrun.
  cbv zeta. unfold ret.
  set (first := "$ " ++ sc_command (sr_command result) ++ " "
                     ++ Js.join " " (sc_args (sr_command result))).
  set (code := "exitCode: " ++ Js.of_Z (match exitCode result with Some n => n | None => 0 end)).
  assert (Hfirst : Js.nonempty first && Js.nonempty (Js.trim first) = true).
  { unfold first. cbn [append Js.nonempty andb]. apply trim_head. reflexivity. }
  assert (Hcode : Js.nonempty code && Js.nonempty (Js.trim code) = true).
  { unfold code. cbn [append Js.nonempty andb]. apply trim_head. reflexivity. }
  assert (A : forall a b c : string, (a ++ b) ++ c = a ++ b ++ c).
  { intros a b c. induction a as [|x a IH]; simpl; [reflexivity | rewrite IH; reflexivity]. }
  cbn [filter]. rewrite Hfirst, Hcode.
  assert (Hout : Js.nonempty (Js.trim (stdout result))
                   && Js.nonempty (Js.trim (Js.trim (stdout result)))
                 = false ->
                 Js.nonempty (Js.trim (stdout result)) = false
                 \/ Js.nonempty (Js.trim (Js.trim (stdout result))) = false).
  { intros H. apply andb_false_iff in H. exact H. }
  destruct (Js.nonempty (Js.trim (stdout result))
              && Js.nonempty (Js.trim (Js.trim (stdout result)))) eqn:Eout;
    destruct (Js.nonempty (stderr result)) eqn:Eerr.
  - set (err := "stderr:" ++ LFs ++ Js.trim (stderr result)).
    assert (Herr : Js.nonempty err && Js.nonempty (Js.trim err) = true).
    { unfold err. cbn [append Js.nonempty andb]. apply trim_head. reflexivity. }
    rewrite Herr. cbn [Js.join].
    exists ((LFs ++ LFs) ++ Js.trim (stdout result) ++ (LFs ++ LFs) ++ err).
    split; [rewrite !A; reflexivity|].
    intros H. apply andb_true_iff in Eout as [Eout _]. congruence.
  - cbn [Js.nonempty andb Js.join].
    exists ((LFs ++ LFs) ++ Js.trim (stdout result)).
    split; [rewrite !A; reflexivity|].
    intros H. apply andb_true_iff in Eout as [Eout _]. congruence.
  - set (err := "stderr:" ++ LFs ++ Js.trim (stderr result)).
    assert (Herr : Js.nonempty err && Js.nonempty (Js.trim err) = true).
    { unfold err. cbn [append Js.nonempty andb]. apply trim_head. reflexivity. }
    rewrite Herr. cbn [Js.join].
    exists ((LFs ++ LFs) ++ err).
    split; [rewrite !A; reflexivity|]. discriminate.
  - cbn [Js.nonempty andb Js.join].
    exists EmptyString. split; [reflexivity|]. reflexivity.
Qed.

(** ** The tools of the agent *)

(** X16: a tool call under a name that is neither [mcp_command] nor
    [registry_task], and an [mcp_command] call whose input has no command,
    or one that is falsy or reads as the empty text, return an error result
    at once: nothing is sent and the world is as before. *)
Theorem tool_rejected_locally (call : ToolUse) (gatewayUrl : string) (context : TaskContext)
    (w : World) :
  (tu_name call <> "mcp_command" ->
   tu_name call <> "registry_task" ->
   executeMappedTool (mapToolCall call) gatewayUrl context w
   = (Ok (mkToolResult ("Unknown tool invocation: " ++ tu_name call) (Some true)), w)) /\
  (forall fields,
     tu_name call = "mcp_command" ->
     tu_input call = JObj fields ->
     Js.nonempty (string_or_empty (JsValue.lookup "command" fields)) = false ->
     executeMappedTool (mapToolCall call) gatewayUrl context w
     = (Ok (mkToolResult "Missing command field" (Some true)), w)).
Proof.
  split.
  - intros Hmcp Htask. unfold mapToolCall.
    apply String.eqb_neq in Hmcp. apply String.eqb_neq in Htask.
    rewrite Hmcp, Htask. reflexivity.
  - intros fields Hname Hinput Hcommand. unfold mapToolCall.
    rewrite Hname. cbn [String.eqb Ascii.eqb Bool.eqb].
    unfold executeMappedTool. cbn [inv_type inv_input]. rewrite Hinput.
    unfold read_input. rewrite bind_ret_l. cbn [JsValue.prop].
    rewrite Hcommand. reflexivity.
Qed.

(** The options of a [call] that the input of an [mcp_command] tool call
    gives: none unless the tool name is truthy and reads as a text that is
    not empty. *)
Definition tool_call_options (fields : list (string * Json)) : option (string * Json) :=
  let t := JsValue.lookup "tool" fields in
  let a := JsValue.lookup "args" fields in
  if JsValue.truthy t && Js.nonempty (string_or_empty t) then
    Some (string_or_empty t,
          match a with
          | Some v => if JsValue.truthy a && JsValue.typeof_object v then v else JObj []
          | None => JObj []
          end)
  else None.

(** X17: an [mcp_command] tool call with an object for input and a command
    always returns a tool result, and leaves the world as its gateway
    command leaves it.  The gateway command runs against the URL given to
    the tool with the tokens of the context; when it throws, the result is
    the message of the exception, marked as an error; when it returns, the
    result is the handshake and the response printed as one JSON object,
    not marked. *)
Theorem mcp_tool_contained (id : string) (fields : list (string * Json))
    (gatewayUrl : string) (context : TaskContext) (w : World) :
  let command := string_or_empty (JsValue.lookup "command" fields) in
  let run :=
    executeMcpCommand command gatewayUrl (ctx_gatewayToken context)
                      (ctx_backendToken context) (tool_call_options fields) w in
  Js.nonempty command = true ->
  executeMappedTool (mapToolCall (mkToolUse id "mcp_command" (JObj fields)))
                    gatewayUrl context w
  = (Ok match fst run with
        | Ok r =>
            mkToolResult
              (JSON_stringify_pretty
                 (JObj [("handshake", handshake r); ("response", response r)]))
              None
        | Throw e => mkToolResult (exn_message e) (Some true)
        end,
     snd run).
Proof.
  intros command run Hcommand.
  rewrite (executeMappedTool_mcp id fields) by exact Hcommand. cbv zeta.
  cbn [JsValue.prop]. fold command.
  replace (if truthy_str _ then _ else None) with (tool_call_options fields).
  - unfold run, try_catch, bind, ret.
    destruct (executeMcpCommand _ _ _ _ _ w) as [[r|e] w']; reflexivity.
  - unfold tool_call_options. cbv zeta.
    destruct (JsValue.truthy (JsValue.lookup "tool" fields)); cbn [truthy_str andb];
      [|reflexivity].
    destruct (Js.nonempty (string_or_empty (JsValue.lookup "tool" fields))); reflexivity.
Qed.

(** The command line a [registry_task] tool call hands to the dispatcher. *)
Definition task_command_line (fields : list (string * Json)) : string :=
  let text := Js.trim (string_or_empty (JsValue.lookup "command" fields)) in
  if Js.startsWith "/" text then text else "/" ++ text.

(** X18: a [registry_task] tool call with an object for input runs the
    dispatcher on the command of the input, trimmed, with a slash put
    before it unless it starts with one, so on a line that always starts
    with a slash, the lone slash for a missing command; the result carries
    the lines joined by line feeds and the error mark of the dispatcher.
    The URL given to the tool plays no part: the dispatcher takes the
    gateway from the context. *)
Theorem task_tool_dispatch (id : string) (fields : list (string * Json))
    (gatewayUrl : string) (context : TaskContext) (w : World) :
  Js.startsWith "/" (task_command_line fields) = true /\
  executeMappedTool (mapToolCall (mkToolUse id "registry_task" (JObj fields)))
                    gatewayUrl context w
  = (match fst (executeSlashCommand (task_command_line fields) context w) with
     | Ok result => Ok (mkToolResult (Js.join LFs (lines result)) (isError result))
     | Throw e => Throw e
     end,
     snd (executeSlashCommand (task_command_line fields) context w)).
Proof.
  split.
  - unfold task_command_line. cbv zeta.
    destruct (Js.startsWith "/" (Js.trim _)) eqn:E; [exact E|].
    apply (prefix_app "/").
  - change (mapToolCall _) with (mkInvocation TTask "registry_task" (JObj fields)).
    unfold executeMappedTool. cbn [inv_type inv_input].
    unfold read_input. rewrite bind_ret_l. cbn [JsValue.prop].
    fold (task_command_line fields).
    unfold bind, ret.
    destruct (executeSlashCommand (task_command_line fields) context w) as [[r|e] w'];
      reflexivity.
Qed.

(** X19: a [call] with its options puts the tool name and the arguments on
    the wire as they are: when the handshake returns, the command sends
    three requests, and the body of the third is the [tools/call] request
    numbered 2 with the name and the arguments as its parameters. *)
Theorem call_on_the_wire (gatewayUrl : string) (gatewayToken backendToken : option string)
    (tool : string) (args : Json) (w : World) :
  let run :=
    executeMcpCommand "call" gatewayUrl gatewayToken backendToken (Some (tool, args)) w in
  is_ok (fst (initialize
                (mkCW (constructor (mkOptions gatewayUrl gatewayToken backendToken None)) w)))
    = true ->
  exists first second third,
    sent (snd run) = (sent w ++ [first; second; third])%list /\
    req_body first
      = JSON_stringify
          (JObj [("jsonrpc", JStr "2.0"); ("id", JNum (inject_Z 1));
                 ("method", JStr "initialize"); ("params", initialize_params)]) /\
    req_body second
      = JSON_stringify
          (JObj [("jsonrpc", JStr "2.0"); ("method", JStr "notifications/initialized")]) /\
    req_body third
      = JSON_stringify
          (JObj [("jsonrpc", JStr "2.0"); ("id", JNum (inject_Z 2));
                 ("method", JStr "tools/call");
                 ("params", JObj [("name", JStr tool); ("arguments", args)])]).
Proof.
  intros run Hinit. unfold run. rewrite executeMcpCommand_run. cbv zeta.
  set (s0 := mkCW (constructor _) w) in *.
  pose proof (call_first_request CallInitialize s0) as Hfirst.
  cbv zeta in Hfirst. simpl call in Hfirst.
  destruct Hfirst as (Hid & more & Hsent & _ & _).
  assert (Hmore : exists c, more = [request_of c (mkRpc None "notifications/initialized" None)]).
  { revert Hsent. rewrite initialize_run. cbv zeta. revert Hinit. rewrite initialize_run.
    cbv zeta. destruct (fst (execute _ false _)); cbn [fst snd is_ok]; [|discriminate].
    intros _. rewrite !execute_state. cbn [this world sent].
    rewrite <- app_assoc. intros H. apply app_inv_head in H.
    injection H as <-. eexists. reflexivity. }
  destruct Hmore as (c2 & ->).
  destruct (fst (initialize s0)) as [h|e]; [|discriminate].
  cbn [command_method String.eqb Ascii.eqb Bool.eqb fst snd].
  destruct (call_first_request (CallCallTool tool args) (snd (initialize s0)))
    as (_ & more3 & Hsent3 & Hlen3 & _).
  assert (Hnone : more3 = []).
  { pose proof (call_count (CallCallTool tool args) (snd (initialize s0))) as Hcount.
    rewrite Hsent3, length_app in Hcount. simpl in Hcount.
    destruct more3; [reflexivity|]. simpl in Hcount.
    specialize (Hcount ltac:(discriminate)). lia. }
  subst more3.
  eexists. eexists. eexists.
  split; [rewrite Hsent3, Hsent, <- app_assoc; reflexivity|].
  rewrite Hid. change (requestId (this s0) + 1) with 1.
  repeat split.
Qed.

(** ** The catalog of tasks, [agent/tools.ts] *)

(** A task of the catalog, of which the description of the tools reads the
    key and the description. *)
Record ScriptTask : Type := mkScriptTask { task_key : string; task_description : option string }.

(** [taskCatalog] of [tasks/index.ts]: its categories with their tasks, in
    the order [Object.entries] gives them. *)
Variable taskCatalog : list (string * list ScriptTask).

(** [s.replace(pattern, "")] for a pattern that is a string: the first
    occurrence of the pattern goes. *)
Fixpoint replace_first (pattern s : string) : string :=
  match s with
  | EmptyString => EmptyString
  | String c rest =>
      if String.prefix pattern s then Js.slice (String.length pattern) s
      else String c (replace_first pattern rest)
  end.

Definition describeAvailableTasks : string :=
  Js.join LFs
    (flat_map
       (fun entry =>
          ("Category: " ++ fst entry)
          :: map (fun task =>
                    "  - " ++ replace_first (fst entry ++ "-") (task_key task) ++ ": "
                      ++ match task_description task with Some d => d | None => EmptyString end)
                 (snd entry))
       taskCatalog).

(** ** The chat shell, [app.tsx] *)

Inductive ChatRole : Type := ChatSystem | ChatUser | ChatAssistant | ChatTool.

Record ChatMessage : Type := mkChat { chat_id : Z; chat_role : ChatRole; chat_text : string }.

Definition buildAgentHistory (messages : list ChatMessage) : list AgentMessage :=
  map (fun message =>
         mkMessage (match chat_role message with
                    | ChatSystem => RSystem
                    | ChatAssistant => RAssistant
                    | _ => RUser
                    end)
                   (chat_text message))
      (filter (fun message => match chat_role message with ChatTool => false | _ => true end)
              messages).

(** The options of the command line the shell reads when it runs one
    command and leaves. *)
Record ParsedArgs : Type := mkArgs {
  pa_tool : option string;
  pa_args : option string;
  pa_json : bool
}.

(** How the process ends: [process.exit(0)] after a [console.log], or
    [process.exit(1)] after a [console.error]. *)
Inductive ProcessEnd : Type :=
| Exit0 (printed : string)
| Exit1 (complaint : string).

(** The effect of the shell for one command without interaction, from its
    [try] on. *)
Definition runCommandAndExit (options : ParsedArgs) (command gatewayUrl : string)
    (gatewayToken backendToken : option string) : M World ProcessEnd :=
  try_catch
    (extras <-
       (if truthy_str (pa_tool options) then
          args <- (if truthy_str (pa_args options)
                   then JSON_parse_m
                          (match pa_args options with Some a => a | None => EmptyString end)
                   else ret (JObj [])) ;;
          ret (Some (match pa_tool options with Some t => t | None => EmptyString end, args))
        else ret None) ;;
     result <- executeMcpCommand command gatewayUrl gatewayToken backendToken extras ;;
     lines <- of_result (formatMcpResult command (handshake result) (response result)
                                         (pa_tool options)) ;;
     ret (Exit0 (if pa_json options
                 then JSON_stringify (JObj [("lines", JArr (map JStr lines))])
                 else Js.join LFs lines)))
    (fun error => ret (Exit1 (exn_message error))).

Lemma replace_first_prefix (pattern s : string) :
  String.prefix pattern s = true ->
  replace_first pattern s = Js.slice (String.length pattern) s.
Proof.
  destruct s as [|c s]; intros H.
  - destruct pattern; [reflexivity | discriminate].
  - cbn [replace_first]. rewrite H. reflexivity.
Qed.

Lemma slice_app (p s : string) : Js.slice (String.length p) (p ++ s) = s.
Proof. induction p as [|c p IH]; [destruct s; reflexivity | exact IH]. Qed.

Lemma replace_first_absent (pattern s : string) :
  Js.includes pattern s = false -> replace_first pattern s = s.
Proof.
  induction s as [|c s IH]; [reflexivity|].
  cbn [Js.includes replace_first]. intros H. apply orb_false_iff in H as [Hp Hrest].
  rewrite Hp, (IH Hrest). reflexivity.
Qed.

Lemma flat_map_in_ext {A B} (f g : A -> list B) (l : list A) :
  (forall x, In x l -> f x = g x) -> flat_map f l = flat_map g l.
Proof.
  induction l as [|x l IH]; intros H; [reflexivity|].
  simpl. rewrite (H x (or_introl eq_refl)), IH; [reflexivity|].
  intros y Hy. apply H. right. exact Hy.
Qed.

(** X20: the description of the tasks lists each category of the catalog
    under its name, followed by one line for each of its tasks, in order.
    A task whose key starts with the category and a hyphen is shown under
    the rest of its key; a key in which the category and a hyphen do not
    occur is shown whole; the description follows, empty when the task has
    none. *)
Theorem tasks_described (shown : string -> ScriptTask -> string) :
  (forall category task,
     In (category, task)
        (flat_map (fun entry => map (fun t => (fst entry, t)) (snd entry)) taskCatalog) ->
     (exists name, task_key task = category ++ "-" ++ name /\ shown category task = name) \/
     (Js.includes (category ++ "-") (task_key task) = false /\
      shown category task = task_key task)) ->
  describeAvailableTasks =
  Js.join LFs
    (flat_map
       (fun entry =>
          ("Category: " ++ fst entry)
          :: map (fun task =>
                    "  - " ++ shown (fst entry) task ++ ": "
                      ++ match task_description task with Some d => d | None => EmptyString end)
                 (snd entry))
       taskCatalog).
Proof.
  intros Hshown. unfold describeAvailableTasks. f_equal.
  apply flat_map_in_ext. intros entry Hentry. f_equal.
  apply map_ext_in. intros task Htask.
  assert (Hin : In (fst entry, task)
                   (flat_map (fun entry => map (fun t => (fst entry, t)) (snd entry))
                             taskCatalog)).
  { apply in_flat_map. exists entry. split; [exact Hentry|].
    apply in_map_iff. exists task. split; [reflexivity | exact Htask]. }
  assert (A : forall a b c : string, (a ++ b) ++ c = a ++ b ++ c).
  { intros a b c. induction a as [|x a IH]; simpl; [reflexivity | rewrite IH; reflexivity]. }
  destruct (Hshown _ _ Hin) as [(name & Hkey & ->)|(Habsent & ->)].
  - rewrite Hkey.
    replace (fst entry ++ "-" ++ name) with ((fst entry ++ "-") ++ name) by apply A.
    rewrite replace_first_prefix by apply prefix_app.
    rewrite slice_app. reflexivity.
  - rewrite replace_first_absent by exact Habsent. reflexivity.
Qed.

Lemma history_filter (messages : list ChatMessage) :
  map (fun msg => mkEntry (role_name (role msg)) (CString (content msg)))
      (filter (fun msg => is_user_or_assistant (role msg)) (buildAgentHistory messages))
  = map (fun message =>
           mkEntry (match chat_role message with ChatAssistant => "assistant" | _ => "user" end)
                   (CString (chat_text message)))
        (filter (fun message =>
                   match chat_role message with
                   | ChatUser | ChatAssistant => true
                   | _ => false
                   end) messages).
Proof.
  unfold buildAgentHistory.
  induction messages as [|[id [| | |] text] messages IH]; simpl; try rewrite IH; reflexivity.
Qed.

(** X21: the history the shell builds for a turn from its chat and the text
    just typed gives the agent a conversation of the user and assistant
    messages of the chat, in order, with the typed text last: the tool
    outputs shown in the chat are not among them, the system messages go to
    the system prompt, and the stand-in [Hello.] is never used. *)
Theorem shell_conversation (messages : list ChatMessage) (id : Z) (typed : string) :
  let history := buildAgentHistory (messages ++ [mkChat id ChatUser typed]) in
  initial_conversation history
  = (map (fun message =>
            mkEntry (match chat_role message with ChatAssistant => "assistant" | _ => "user" end)
                    (CString (chat_text message)))
         (filter (fun message =>
                    match chat_role message with
                    | ChatUser | ChatAssistant => true
                    | _ => false
                    end) messages)
     ++ [mkEntry "user" (CString typed)])%list /\
  system_prompt_of history
  = Js.join (LFs ++ LFs)
      (buildSystemPrompt
       :: map chat_text
            (filter (fun message => match chat_role message with ChatSystem => true | _ => false end)
                    messages)).
Proof.
  intros history. unfold history. split.
  - unfold initial_conversation. cbv zeta. rewrite history_filter.
    rewrite filter_app, map_app. cbn [filter chat_role map chat_text].
    destruct (map _ (filter _ messages) ++ _)%list as [|e es] eqn:E; [|reflexivity].
    destruct (map _ (filter _ messages)); discriminate.
  - unfold system_prompt_of, buildAgentHistory. do 2 f_equal.
    induction messages as [|[i [| | |] text] messages IH]; simpl; try rewrite IH; reflexivity.
Qed.

(** The options of the gateway command the shell makes of its own: none
    without a tool, the tool with the arguments parsed, an empty object when
    there are none; [None] when the arguments are not JSON. *)
Definition exit_extras (options : ParsedArgs) : option (option (string * Json)) :=
  if truthy_str (pa_tool options) then
    match (if truthy_str (pa_args options)
           then JSON_parse (match pa_args options with Some a => a | None => EmptyString end)
           else Some (JObj [])) with
    | Some args =>
        Some (Some (match pa_tool options with Some t => t | None => EmptyString end, args))
    | None => None
    end
  else Some None.

(** X22: the one command the shell runs without interaction always ends the
    process, with status 0 or 1, and never lets an exception out.  With a
    tool and arguments that are not JSON it ends with status 1 and the
    message of the syntax error before anything is sent; otherwise it leaves
    the world as its gateway command leaves it, ends with status 1 and the
    message of the exception when the gateway command throws, and with
    status 0 only when the gateway command has returned. *)
Theorem command_exit (options : ParsedArgs) (command gatewayUrl : string)
    (gatewayToken backendToken : option string) (w : World) :
  let run := runCommandAndExit options command gatewayUrl gatewayToken backendToken w in
  (exists ending, fst run = Ok ending) /\
  (exit_extras options = None ->
   exists a,
     pa_args options = Some a /\ run = (Ok (Exit1 (JSON_syntax_message a)), w)) /\
  (forall extras,
     exit_extras options = Some extras ->
     let gateway :=
       executeMcpCommand command gatewayUrl gatewayToken backendToken extras w in
     snd run = snd gateway /\
     (forall e, fst gateway = Throw e -> fst run = Ok (Exit1 (exn_message e))) /\
     (forall printed, fst run = Ok (Exit0 printed) -> is_ok (fst gateway) = true)).
Proof.
  intros run.
  assert (Hrun : forall extras,
            let gateway :=
              executeMcpCommand command gatewayUrl gatewayToken backendToken extras w in
            exit_extras options = Some extras ->
            run = match fst gateway with
                  | Ok r =>
                      (match formatMcpResult command (handshake r) (response r)
                                             (pa_tool options) with
                       | Ok out =>
                           Ok (Exit0 (if pa_json options
                                      then JSON_stringify (JObj [("lines", JArr (map JStr out))])
                                      else Js.join LFs out))
                       | Throw e => Ok (Exit1 (exn_message e))
                       end, snd gateway)
                  | Throw e => (Ok (Exit1 (exn_message e)), snd gateway)
                  end).
  { intros extras gateway. unfold gateway, exit_extras, run, runCommandAndExit.
    destruct (truthy_str (pa_tool options)).
    - destruct (truthy_str (pa_args options)).
      + unfold JSON_parse_m. destruct (JSON_parse _) as [args|]; [|discriminate].
        intros [= <-]. rewrite !bind_ret_l. unfold try_catch, bind, of_result, ret.
        destruct (executeMcpCommand _ _ _ _ _ w) as [[r|e] w']; [|reflexivity].
        cbn [fst snd]. destruct (formatMcpResult _ _ _ _); reflexivity.
      + intros [= <-]. rewrite !bind_ret_l. unfold try_catch, bind, of_result, ret.
        destruct (executeMcpCommand _ _ _ _ _ w) as [[r|e] w']; [|reflexivity].
        cbn [fst snd]. destruct (formatMcpResult _ _ _ _); reflexivity.
    - intros [= <-]. rewrite !bind_ret_l. unfold try_catch, bind, of_result, ret.
      destruct (executeMcpCommand _ _ _ _ _ w) as [[r|e] w']; [|reflexivity].
      cbn [fst snd]. destruct (formatMcpResult _ _ _ _); reflexivity. }
  assert (Hnone : exit_extras options = None ->
                  exists a, pa_args options = Some a /\
                            run = (Ok (Exit1 (JSON_syntax_message a)), w)).
  { unfold exit_extras, run, runCommandAndExit.
    destruct (truthy_str (pa_tool options)); [|discriminate].
    unfold truthy_str at 1 2.
    destruct (pa_args options) as [a|]; [|discriminate].
    destruct (Js.nonempty a); [|discriminate].
    unfold JSON_parse_m. destruct (JSON_parse a); [discriminate|].
    intros _. exists a. split; reflexivity. }
  split; [|split; [exact Hnone|]].
  - destruct (exit_extras options) as [extras|] eqn:E.
    + rewrite (Hrun extras eq_refl).
      destruct (fst (executeMcpCommand _ _ _ _ extras w)) as [r|e]; [|cbn [fst]; eauto].
      destruct (formatMcpResult _ _ _ _); cbn [fst]; eauto.
    + destruct (Hnone eq_refl) as (a & _ & ->). cbn [fst]. eauto.
  - intros extras E gateway. rewrite (Hrun extras E). fold gateway.
    destruct (fst gateway) as [r|e].
    + split; [destruct (formatMcpResult _ _ _ _); reflexivity|].
      split; [discriminate | reflexivity].
    + split; [reflexivity|]. split; [intros e' [= <-]; reflexivity | discriminate].
Qed.

End Platform.

(** * Scenarios

    Concrete worlds on which the properties above are run, with the JSON
    functions of [MiniJson]. *)

Module Scenario.

Definition options : McpClientOptions :=
  mkOptions "http://localhost/mcpgw/mcp/" None None None.

Definition fresh : McpClient := constructor options.

Definition json_headers : list (string * string) :=
  [("content-type", "application/json")].

Definition success (headers : list (string * string)) (raw : string) : FetchOutcome :=
  Responds (mkResponse 200 "OK" headers (BodyText raw)).

(** A network that answers [{}] to everything, with the [n]-th answer of
    the list carrying its headers for the [n]-th request. *)
Definition answers (hs : list (list (string * string))) : World :=
  mkWorld (fun n _ => success (nth n hs json_headers) "{}") [].

(** A network that gives the outcome [o] to every request. *)
Definition always (o : FetchOutcome) : World := mkWorld (fun _ _ => o) [].

Definition run_calls := run_calls MiniJson.parse MiniJson.syntax_message MiniJson.stringify
                                  MiniJson.number.

Definition execute := execute MiniJson.parse MiniJson.syntax_message MiniJson.stringify
                              MiniJson.number.

Definition request_of := request_of MiniJson.stringify.

(** The first response carries the session identifier [abc]. *)
Definition session_world : World :=
  answers [[("content-type", "application/json"); ("mcp-session-id", "abc")]].

(** The first response carries [abc], the second an empty session header. *)
Definition empty_session_world : World :=
  answers [[("content-type", "application/json"); ("mcp-session-id", "abc")];
           [("content-type", "application/json"); ("mcp-session-id", "")]].

Definition ping_payload (id : Z) : JsonRpcRequest := mkRpc (Some id) "ping" None.


Definition with_session (sid : string) (id : Z) : McpClient :=
  set_sessionId (Some sid) (set_requestId id fresh).



Definition forbidden : Response :=
  mkResponse 403 "Forbidden" json_headers (BodyText (Js.dq "{'error':{'message':'forbidden'}}")).

(** An error object with a code and no message. *)
Definition coded : Response :=
  mkResponse 403 "Forbidden" json_headers (BodyText (Js.dq "{'error':{'code':1}}")).


Definition fetch_failed : Exn := mkExn "TypeError" "fetch failed".

(** Modelled from the spec: the command parser of [chat/commandParser.ts],
    for the bare commands [help], [ping], [list] and [init] of section 4.2,
    written with the slash the dispatcher puts before a command; the call
    and task forms, whose syntax the specification leaves open, are not
    covered and come out as unknown. *)
Definition parseCommand (input : string) : ParsedCommand :=
  let word := Js.trim (if Js.startsWith "/" input then Js.slice 1 input else input) in
  if String.eqb word "help" then PHelp
  else if String.eqb word "ping" then PPing
  else if String.eqb word "list" then PList
  else if String.eqb word "init" then PInit
  else PUnknown ("Unknown command: " ++ input).

(** A catalog with no task, and a runner that is never reached. *)
Definition resolveTaskCommand (t : TaskCommand) : string + (unit * unit) :=
  inl ("Unknown task: " ++ key t).

Definition runScriptTaskToString (category : string) (task values : unit)
    (context : TaskContext) : M World ScriptResult :=
  throw (Error "no script runner").

Definition context : TaskContext :=
  mkContext "http://localhost/mcpgw/mcp" "http://localhost/" None None.

Definition config : AgentConfig :=
  mkConfig "http://localhost/mcpgw/mcp" "http://localhost/" None None None.

Definition executeMappedTool :=
  executeMappedTool MiniJson.parse MiniJson.syntax_message MiniJson.stringify MiniJson.pretty
                    MiniJson.number unit unit parseCommand resolveTaskCommand
                    runScriptTaskToString.

Definition runAgentTurn (provider : Provider) :=
  runAgentTurn MiniJson.parse MiniJson.syntax_message MiniJson.stringify MiniJson.pretty
               MiniJson.number unit unit parseCommand resolveTaskCommand
               runScriptTaskToString (Ok provider) None.

(** A provider that always gives the same blocks. *)
Definition says (blocks : list Block) : Provider :=
  fun _ _ => Ok (mkProviderResponse (Some blocks)).

Definition ping_task : ToolUse :=
  mkToolUse "toolu_1" "registry_task" (JObj [("command", JStr "ping")]).

Definition history : list AgentMessage := [mkMessage RUser "ping the gateway"].

Definition agent_world (w : World) : AgentWorld := mkAW [] w.

End Scenario.

(** * The properties on the scenarios *)

(** ** C1 *)

(** Two pings on a network whose first response carries the session
    identifier [abc]: the second request carries it. *)
Lemma session_echo_witness :
  session_header (Scenario.request_of (Scenario.with_session "abc" 2) (Scenario.ping_payload 2))
  = Some "abc".
Proof.
  apply (session_echo MiniJson.parse MiniJson.syntax_message MiniJson.stringify MiniJson.number
           Scenario.options Scenario.session_world [CallPing; CallPing]
           [Scenario.request_of (set_requestId 1 Scenario.fresh) (Scenario.ping_payload 1)]
           (Scenario.request_of (Scenario.with_session "abc" 2) (Scenario.ping_payload 2))
           []).
  vm_compute. reflexivity.
Defined.

(** C1 as stated fails: the second response carries a session header, whose
    value is empty, and the third request carries no session header at
    all, where the second still carried [abc]. *)
Lemma session_echo_counterexample :
  captured (net Scenario.empty_session_world 1
              (Scenario.request_of (Scenario.with_session "abc" 2) (Scenario.ping_payload 2)))
  = Some EmptyString /\
  map session_header
      (sent (world (Scenario.run_calls [CallPing; CallPing; CallPing]
                      (mkCW Scenario.fresh Scenario.empty_session_world))))
  = [None; Some "abc"; None].
Proof. split; vm_compute; reflexivity. Qed.

(** ** C7 *)


(** ** C5 *)



(** ** C6 *)

(** The response of the specification: status 403 and a body whose error
    has the message [forbidden]. *)
Lemma http_error_raised_witness :
  exists msg,
    fst (Scenario.execute (Scenario.ping_payload 1) false
           (mkCW Scenario.fresh (Scenario.always (Responds Scenario.forbidden))))
    = Throw (Error msg) /\
    Js.includes "403" msg = true /\
    Js.includes "forbidden" msg = true.
Proof.
  destruct (http_error_raised MiniJson.parse MiniJson.syntax_message MiniJson.stringify
              MiniJson.number (Scenario.ping_payload 1)
              (mkCW Scenario.fresh (Scenario.always (Responds Scenario.forbidden)))
              Scenario.forbidden (Js.dq "{'error':{'message':'forbidden'}}")
              eq_refl eq_refl eq_refl)
    as (msg & Hthrow & Hstatus & Hmessage & _).
  exists msg. split; [exact Hthrow|]. split; [exact Hstatus|].
  exact (proj2 (Hmessage (JObj [("message", JStr "forbidden")]) "forbidden" eq_refl eq_refl)).
Defined.

(** C6 as stated fails: a body whose error object has no message is not
    JSON of the kind the claim names, and the message of the error raised
    does not include the raw body. *)
Lemma http_error_counterexample :
  let raw := Js.dq "{'error':{'code':1}}" in
  fst (Scenario.execute (Scenario.ping_payload 1) false
         (mkCW Scenario.fresh (Scenario.always (Responds Scenario.coded))))
  = Throw (Error (Js.dq "HTTP 403 Forbidden: {'code':1}")) /\
  Js.includes raw (Js.dq "HTTP 403 Forbidden: {'code':1}") = false.
Proof. cbv zeta. split; vm_compute; reflexivity. Qed.

(** ** C8 *)


(** ** C3 and C2 *)

(** With the gateway unreachable, the [registry_task] tool throws and the
    [mcp_command] tool returns an error result. *)
Lemma task_failure_escapes_witness :
  fst (Scenario.executeMappedTool (mapToolCall Scenario.ping_task)
         "http://localhost/mcpgw/mcp" Scenario.context
         (Scenario.always (NetworkFails Scenario.fetch_failed)))
  = Throw Scenario.fetch_failed /\
  fst (Scenario.executeMappedTool
         (mapToolCall (mkToolUse "toolu_1" "mcp_command" (JObj [("command", JStr "ping")])))
         "http://localhost/mcpgw/mcp" Scenario.context
         (Scenario.always (NetworkFails Scenario.fetch_failed)))
  = Ok (mkToolResult "fetch failed" (Some true)).
Proof.
  exact (task_failure_escapes MiniJson.parse MiniJson.syntax_message MiniJson.stringify
           MiniJson.pretty MiniJson.number unit unit Scenario.parseCommand
           Scenario.resolveTaskCommand Scenario.runScriptTaskToString
           "toolu_1" "http://localhost/mcpgw/mcp" Scenario.context
           (Scenario.always (NetworkFails Scenario.fetch_failed)) Scenario.fetch_failed
           eq_refl (fun _ => eq_refl) eq_refl).
Defined.

(** The same failure ends the agent turn after one provider call. *)
Lemma agent_turn_escapes_witness :
  let run :=
    Scenario.runAgentTurn (Scenario.says [BToolUse Scenario.ping_task]) Scenario.history
      Scenario.config
      (Scenario.agent_world (Scenario.always (NetworkFails Scenario.fetch_failed))) in
  fst run = Throw Scenario.fetch_failed /\ length (asked (snd run)) = 1%nat.
Proof.
  exact (agent_turn_escapes MiniJson.parse MiniJson.syntax_message MiniJson.stringify
           MiniJson.pretty MiniJson.number unit unit Scenario.parseCommand
           Scenario.resolveTaskCommand Scenario.runScriptTaskToString
           (Ok (Scenario.says [BToolUse Scenario.ping_task])) None
           (Scenario.says [BToolUse Scenario.ping_task]) Scenario.history Scenario.config
           (Scenario.agent_world (Scenario.always (NetworkFails Scenario.fetch_failed)))
           "toolu_1" Scenario.fetch_failed
           eq_refl eq_refl (fun _ _ => eq_refl) (fun _ => eq_refl) eq_refl).
Defined.

(** ** C9 *)

(** A response of two text blocks ends the turn with one message. *)
Lemma agent_turn_text_only_witness :
  exists req,
    Scenario.runAgentTurn (Scenario.says [BText "Hello"; BText "there"]) Scenario.history
      Scenario.config (Scenario.agent_world (Scenario.always TimesOut))
    = (Ok (mkAgentResult [mkMessage RAssistant ("Hello" ++ LFs ++ "there")] []),
       mkAW [req] (Scenario.always TimesOut)).
Proof.
  exact (agent_turn_text_only MiniJson.parse MiniJson.syntax_message MiniJson.stringify
           MiniJson.pretty MiniJson.number unit unit Scenario.parseCommand
           Scenario.resolveTaskCommand Scenario.runScriptTaskToString
           (Ok (Scenario.says [BText "Hello"; BText "there"])) None
           (Scenario.says [BText "Hello"; BText "there"]) Scenario.history Scenario.config
           (Scenario.agent_world (Scenario.always TimesOut))
           (mkProviderResponse (Some [BText "Hello"; BText "there"]))
           eq_refl (fun _ => eq_refl) eq_refl).
Defined.

(** C9 as stated fails: the message of a response of the two text blocks
    [a] and [b] is not their concatenation [ab]; a line feed stands between
    them. *)
Lemma agent_turn_text_counterexample :
  map content
      (match fst (Scenario.runAgentTurn (Scenario.says [BText "a"; BText "b"]) Scenario.history
                    Scenario.config (Scenario.agent_world (Scenario.always TimesOut)))
       with
       | Ok result => messages result
       | Throw _ => []
       end)
  = [String "a" (String Js.LF "b")] /\
  String "a" (String Js.LF "b") <> "a" ++ "b".
Proof. split; [vm_compute; reflexivity | discriminate]. Qed.


(** ** Further runs *)

(** A response that makes the call fail still leaves its session
    identifier: after a ping answered by status 500 with the identifier
    [abc], the next request carries [abc]. *)
Example session_captured_on_error :
  let w := mkWorld (fun n _ =>
                      if Nat.eqb n 0
                      then Responds (mkResponse 500 "Internal Server Error"
                                       [("content-type", "application/json");
                                        ("mcp-session-id", "abc")]
                                       (BodyText "{}"))
                      else Scenario.success Scenario.json_headers "{}") [] in
  is_ok (fst (ping MiniJson.parse MiniJson.syntax_message MiniJson.stringify MiniJson.number
                (mkCW Scenario.fresh w))) = false /\
  map session_header
      (sent (world (Scenario.run_calls [CallPing; CallPing] (mkCW Scenario.fresh w))))
  = [None; Some "abc"].
Proof. cbv zeta. split; vm_compute; reflexivity. Qed.

(** One trailing slash goes, and only one. *)
Example constructor_urls :
  url (constructor (mkOptions "http://localhost/mcpgw/mcp/" None None None))
    = "http://localhost/mcpgw/mcp" /\
  url (constructor (mkOptions "http://localhost/mcpgw/mcp//" None None None))
    = "http://localhost/mcpgw/mcp/" /\
  url (constructor (mkOptions "http://localhost/mcpgw/mcp" None None None))
    = "http://localhost/mcpgw/mcp".
Proof. repeat split. Qed.

(** The [call] command without a tool on a gateway that answers: two
    requests go out, the handshake and the notification, and the tool
    result is the validation message. *)
Example call_without_tool_run :
  let run :=
    Scenario.executeMappedTool
      (mapToolCall (mkToolUse "toolu_1" "mcp_command" (JObj [("command", JStr "call")])))
      "http://localhost/mcpgw/mcp" Scenario.context (Scenario.answers []) in
  fst run = Ok (mkToolResult "Tool name and args are required for /call." (Some true)) /\
  map req_body (sent (snd run))
  = [Js.dq "{'jsonrpc':'2.0','id':1,'method':'initialize','params':{'protocolVersion':'2024-11-05','capabilities':{},'clientInfo':{'name':'mcp-ink-cli','version':'0.1.0'}}}";
     Js.dq "{'jsonrpc':'2.0','method':'notifications/initialized'}"].
Proof. cbv zeta. split; vm_compute; reflexivity. Qed.

(** The slash command [/call] without a tool sends nothing. *)
Example slash_call_without_tool_run :
  executeCall MiniJson.parse MiniJson.syntax_message MiniJson.stringify MiniJson.pretty
              MiniJson.number (mkCall None None) Scenario.context (Scenario.answers [])
  = (Ok (mkSlash ["Tool name is required for /call."] (Some true)), Scenario.answers []).
Proof. reflexivity. Qed.

(** [initialize] on a gateway that answers the handshake and drops the
    notification returns the handshake envelope. *)
Example initialize_with_lost_notification :
  let w := mkWorld (fun n _ =>
                      if Nat.eqb n 0
                      then Scenario.success Scenario.json_headers
                             (Js.dq "{'jsonrpc':'2.0','id':1,'result':{}}")
                      else NetworkFails Scenario.fetch_failed) [] in
  fst (initialize MiniJson.parse MiniJson.syntax_message MiniJson.stringify MiniJson.number
         (mkCW Scenario.fresh w))
  = Ok (JObj [("jsonrpc", JStr "2.0"); ("id", JNum (inject_Z 1)); ("result", JObj [])]).
Proof. cbv zeta. vm_compute. reflexivity. Qed.

(** A provider that always asks for a ping through [mcp_command] on a
    gateway that answers: five provider calls, five tool results, and the
    message of the limit. *)
Example agent_turn_limit_run :
  let run :=
    Scenario.runAgentTurn
      (Scenario.says
         [BToolUse (mkToolUse "toolu_1" "mcp_command" (JObj [("command", JStr "ping")]))])
      Scenario.history Scenario.config (Scenario.agent_world (Scenario.answers [])) in
  match fst run with
  | Ok result =>
      messages result
        = [mkMessage RAssistant "Reached tool usage limit without final response."] /\
      map to_isError (toolOutputs result) = [None; None; None; None; None]
  | Throw _ => False
  end /\
  length (asked (snd run)) = 5%nat /\
  length (sent (outside (snd run))) = 15%nat.
Proof. cbv zeta. vm_compute. repeat split. Qed.


(** * More scenarios *)

Module Coverage.

(** A provider that asks for a ping through [mcp_command], every time. *)
Definition pinging : Provider :=
  Scenario.says [BToolUse (mkToolUse "toolu_1" "mcp_command" (JObj [("command", JStr "ping")]))].

(** A provider that answers with two text blocks. *)
Definition talking : Provider := Scenario.says [BText "Hello"; BText "there"].

Definition quiet : AgentWorld := Scenario.agent_world (Scenario.answers []).

Definition result_of (r : result AgentResult) : AgentResult :=
  match r with Ok x => x | Throw _ => mkAgentResult [] [] end.

Definition no_request : ProviderRequest := mkProviderRequest "" "" [] 0 JNull.

(** The requests of a turn with the pinging provider. *)
Definition pinging_requests : list ProviderRequest :=
  asked (snd (Scenario.runAgentTurn pinging Scenario.history Scenario.config quiet)).

(** A JSON-RPC error envelope under status 200. *)
Definition rpc_error : string :=
  Js.dq "{'jsonrpc':'2.0','id':1,'error':{'code':-32601,'message':'Method not found'}}".


(** A dispatcher whose parser resolves every line as the task
    [service list-groups], whose catalog resolves it, and whose runner
    reports a script that failed with status 2. *)
Definition task_parser (input : string) : ParsedCommand :=
  PTask (mkTask "service" "list-groups" "").

Definition task_resolver (t : TaskCommand) : string + (unit * unit) := inr (tt, tt).

Definition failed_script : ScriptResult :=
  mkScriptResult (mkScriptCommand "bash" ["service_mgmt.sh"; "list-groups"])
                 "" "connection refused" (Some 2).

Definition task_runner (category : string) (task values : unit) (context : TaskContext)
    : M World ScriptResult := ret failed_script.

Definition catalog : list (string * list ScriptTask) :=
  [("service", [mkScriptTask "service-add" (Some "Register a service");
                mkScriptTask "monitor" None])].

Definition catalog_name (category : string) (task : ScriptTask) : string :=
  if String.eqb (task_key task) "service-add" then "add" else task_key task.

End Coverage.


(** Five pings give five tool outputs under the name of the tool. *)
Lemma agent_turn_outputs_witness :
  exists new,
    asked (snd (Scenario.runAgentTurn Coverage.pinging Scenario.history Scenario.config
                  Coverage.quiet))
      = (asked Coverage.quiet ++ new)%list /\
    map to_name
        (toolOutputs
           (Coverage.result_of
              (fst (Scenario.runAgentTurn Coverage.pinging Scenario.history Scenario.config
                      Coverage.quiet))))
    = flat_map reply_tools (replies Coverage.pinging (length (asked Coverage.quiet)) new).
Proof.
  apply (agent_turn_outputs MiniJson.parse MiniJson.syntax_message MiniJson.stringify
           MiniJson.pretty MiniJson.number unit unit Scenario.parseCommand
           Scenario.resolveTaskCommand Scenario.runScriptTaskToString
           (Ok Coverage.pinging) None Coverage.pinging Scenario.history Scenario.config
           Coverage.quiet).
  - reflexivity.
  - vm_compute. reflexivity.
Defined.

(** The second request of the pinging turn follows from the first. *)
Lemma agent_turn_conversation_witness :
  exists response outs,
    Coverage.pinging 0%nat (nth 0 Coverage.pinging_requests Coverage.no_request) = Ok response /\
    tool_uses (blocks_of response) <> [] /\
    length outs = length (tool_uses (blocks_of response)) /\
    nth 1 Coverage.pinging_requests Coverage.no_request
    = mkProviderRequest
        (pr_model (nth 0 Coverage.pinging_requests Coverage.no_request))
        (pr_system (nth 0 Coverage.pinging_requests Coverage.no_request))
        (pr_messages (nth 0 Coverage.pinging_requests Coverage.no_request)
         ++ mkEntry "assistant" (CBlocks (blocks_of response))
            :: map (fun p => mkEntry "user" (CBlocks [BToolResult (tu_id (fst p)) (snd p)]))
                   (combine (tool_uses (blocks_of response)) outs))%list
        (pr_max_tokens (nth 0 Coverage.pinging_requests Coverage.no_request))
        (pr_tools (nth 0 Coverage.pinging_requests Coverage.no_request)).
Proof.
  apply (agent_turn_conversation MiniJson.parse MiniJson.syntax_message MiniJson.stringify
           MiniJson.pretty MiniJson.number unit unit Scenario.parseCommand
           Scenario.resolveTaskCommand Scenario.runScriptTaskToString
           (Ok Coverage.pinging) None Coverage.pinging Scenario.history Scenario.config
           Coverage.quiet []
           (nth 0 Coverage.pinging_requests Coverage.no_request)
           (nth 1 Coverage.pinging_requests Coverage.no_request)
           (skipn 2 Coverage.pinging_requests)).
  - reflexivity.
  - vm_compute. reflexivity.
Defined.

(** The first request of a turn on a history of one user message. *)
Lemma agent_turn_first_request_witness :
  exists first rest,
    asked (snd (Scenario.runAgentTurn Coverage.talking Scenario.history Scenario.config
                  Coverage.quiet))
      = (asked Coverage.quiet ++ first :: rest)%list /\
    pr_max_tokens first = 1024 /\
    pr_messages first = [mkEntry "user" (CString "ping the gateway")].
Proof.
  destruct (agent_turn_first_request MiniJson.parse MiniJson.syntax_message MiniJson.stringify
              MiniJson.pretty MiniJson.number unit unit Scenario.parseCommand
              Scenario.resolveTaskCommand Scenario.runScriptTaskToString
              (Ok Coverage.talking) None Coverage.talking Scenario.history Scenario.config
              Coverage.quiet eq_refl)
    as (first & rest & Hasked & Htokens & _ & _ & _ & _ & Hsome & _).
  exists first, rest. split; [exact Hasked|]. split; [exact Htokens|].
  exact (Hsome (mkMessage RUser "ping the gateway") [] eq_refl).
Defined.

(** A JSON-RPC error envelope under status 200 is returned as a value. *)
Lemma success_status_decoded_witness :
  fst (Scenario.execute (Scenario.ping_payload 1) false
         (mkCW Scenario.fresh
               (Scenario.always (Scenario.success Scenario.json_headers Coverage.rpc_error))))
  = Ok (JObj [("jsonrpc", JStr "2.0"); ("id", JNum (inject_Z 1));
              ("error", JObj [("code", JNum (inject_Z (-32601)));
                              ("message", JStr "Method not found")])]).
Proof.
  exact (proj1 (success_status_decoded MiniJson.parse MiniJson.syntax_message
                  MiniJson.stringify MiniJson.number (Scenario.ping_payload 1)
                  (mkCW Scenario.fresh
                        (Scenario.always
                           (Scenario.success Scenario.json_headers Coverage.rpc_error)))
                  (mkResponse 200 "OK" Scenario.json_headers (BodyText Coverage.rpc_error))
                  Coverage.rpc_error eq_refl eq_refl eq_refl)
               _ eq_refl eq_refl eq_refl).
Defined.

(** A failed connection is thrown as it is. *)
Lemma failure_rethrown_witness :
  fst (Scenario.execute (Scenario.ping_payload 1) false
         (mkCW Scenario.fresh (Scenario.always (NetworkFails Scenario.fetch_failed))))
  = Throw Scenario.fetch_failed.
Proof.
  apply (failure_rethrown MiniJson.parse MiniJson.syntax_message MiniJson.stringify
           MiniJson.number (Scenario.ping_payload 1)
           (mkCW Scenario.fresh (Scenario.always (NetworkFails Scenario.fetch_failed)))
           Scenario.fetch_failed eq_refl).
  discriminate.
Defined.

(** Status 403 with an empty body. *)
Lemma http_error_prefix_witness :
  fst (Scenario.execute (Scenario.ping_payload 1) false
         (mkCW Scenario.fresh
               (Scenario.always
                  (Responds (mkResponse 403 "Forbidden" Scenario.json_headers
                                        (BodyText EmptyString))))))
  = Throw (Error "HTTP 403 Forbidden.").
Proof.
  destruct (http_error_prefix MiniJson.parse MiniJson.syntax_message MiniJson.stringify
              MiniJson.number eq_refl (Scenario.ping_payload 1)
              (mkCW Scenario.fresh
                    (Scenario.always
                       (Responds (mkResponse 403 "Forbidden" Scenario.json_headers
                                             (BodyText EmptyString)))))
              (mkResponse 403 "Forbidden" Scenario.json_headers (BodyText EmptyString))
              EmptyString eq_refl eq_refl eq_refl)
    as (rest & Hthrow & _ & Hempty).
  rewrite (Hempty eq_refl) in Hthrow. exact Hthrow.
Defined.


(** A script that fails with status 2 gives a result that is not marked. *)
Lemma slash_task_result_witness :
  exists middle,
    executeSlashCommand MiniJson.parse MiniJson.syntax_message MiniJson.stringify
      MiniJson.pretty MiniJson.number unit unit Coverage.task_parser Coverage.task_resolver
      Coverage.task_runner "/service list-groups" Scenario.context (Scenario.answers [])
    = (Ok (mkSlash
             [("$ " ++ "bash" ++ " " ++ "service_mgmt.sh list-groups")
              ++ middle ++ LFs ++ LFs ++ "exitCode: " ++ "2"]
             None), Scenario.answers []).
Proof.
  destruct (slash_task_result MiniJson.parse MiniJson.syntax_message MiniJson.stringify
              MiniJson.pretty MiniJson.number unit unit Coverage.task_parser
              Coverage.task_resolver Coverage.task_runner
              "/service list-groups" Scenario.context (Scenario.answers [])
              (Scenario.answers []) (mkTask "service" "list-groups" "") tt tt
              Coverage.failed_script eq_refl eq_refl eq_refl)
    as (middle & Hrun & _).
  exists middle. exact Hrun.
Defined.

(** The [mcp_command] tool on an unreachable gateway. *)
Lemma mcp_tool_contained_witness :
  fst (Scenario.executeMappedTool
         (mapToolCall (mkToolUse "toolu_1" "mcp_command" (JObj [("command", JStr "ping")])))
         "http://localhost/mcpgw/mcp" Scenario.context
         (Scenario.always (NetworkFails Scenario.fetch_failed)))
  = Ok (mkToolResult "fetch failed" (Some true)).
Proof.
  exact (f_equal fst
           (mcp_tool_contained MiniJson.parse MiniJson.syntax_message MiniJson.stringify
              MiniJson.pretty MiniJson.number unit unit Scenario.parseCommand
              Scenario.resolveTaskCommand Scenario.runScriptTaskToString
              "toolu_1" [("command", JStr "ping")] "http://localhost/mcpgw/mcp"
              Scenario.context (Scenario.always (NetworkFails Scenario.fetch_failed))
              eq_refl)).
Defined.

(** A call of the tool [echo] on a gateway that answers. *)
Lemma call_on_the_wire_witness :
  exists first second third,
    sent (snd (executeMcpCommand MiniJson.parse MiniJson.syntax_message MiniJson.stringify
                 MiniJson.number "call" "http://localhost/mcpgw/mcp" None None
                 (Some ("echo", JObj [("text", JStr "hi")])) (Scenario.answers [])))
      = [first; second; third] /\
    req_body third
      = Js.dq "{'jsonrpc':'2.0','id':2,'method':'tools/call','params':{'name':'echo','arguments':{'text':'hi'}}}".
Proof.
  destruct (call_on_the_wire MiniJson.parse MiniJson.syntax_message MiniJson.stringify
              MiniJson.number "http://localhost/mcpgw/mcp" None None
              "echo" (JObj [("text", JStr "hi")]) (Scenario.answers []) eq_refl)
    as (first & second & third & Hsent & _ & _ & Hthird).
  exists first, second, third. split; [exact Hsent | exact Hthird].
Defined.

(** A catalog of one category with a task under its prefix and one
    without. *)
Lemma tasks_described_witness :
  describeAvailableTasks Coverage.catalog
  = Js.join LFs ["Category: service"; "  - add: Register a service"; "  - monitor: "].
Proof.
  apply (tasks_described Coverage.catalog Coverage.catalog_name).
  intros category task [H|[H|[]]]; injection H as <- <-.
  - left. exists "add". split; reflexivity.
  - right. split; reflexivity.
Defined.
